(** * go-turnstile: the verifier client's error classification and the Echo
    middleware gate, embedded from
    [turnstile] (verifier client) and [echoturnstile/middelware.go]. *)

From Stdlib Require Import String List ZArith Bool Lia DecimalString.
Import ListNotations.
Open Scope string_scope.

(** ** The part of the Go runtime the two packages rely on *)

Module Go.

(** Pointer identity.  Package-level variables are initialised once, before
    any function runs ([Static]); every allocation made by running code
    takes the next free cell of the heap ([Dynamic]). *)
Inductive addr : Type :=
| Static (n : nat)
| Dynamic (n : nat).

Definition addr_eqb (a b : addr) : bool :=
  match a, b with
  | Static n, Static m => Nat.eqb n m
  | Dynamic n, Dynamic m => Nat.eqb n m
  | _, _ => false
  end.

(** Values of the interface type [error].  Every concrete error type met
    here is a pointer type, so a non-nil value is an address together with
    the struct it points to:
    [*errors.errorString], [*fmt.wrapError] (one [%w]), [*fmt.wrapErrors]
    (several [%w]), [*echo.HTTPError], and [otherError] for any other
    pointer type, with its [Error()] text and what its [Unwrap()] yields
    ([nil_error] when it has none).  Types with an [Is] method of their own
    are outside this universe. *)
#[warnings="-register-all"]
Inductive error : Type :=
| nil_error
| errorString (p : addr) (s : string)
| wrapError (p : addr) (msg : string) (err : error)
| wrapErrors (p : addr) (msg : string) (errs : list error)
| HTTPError (p : addr) (Code : Z) (Message : string) (Internal : error)
| otherError (p : addr) (type_name : string) (msg : string) (unwrap : error).

Definition is_nil (e : error) : bool :=
  match e with nil_error => true | _ => false end.

(** [err == target] on interface values: both nil, or the same dynamic type
    and the same pointer. *)
Definition error_eqb (a b : error) : bool :=
  match a, b with
  | nil_error, nil_error => true
  | errorString p _, errorString q _ => addr_eqb p q
  | wrapError p _ _, wrapError q _ _ => addr_eqb p q
  | wrapErrors p _ _, wrapErrors q _ _ => addr_eqb p q
  | HTTPError p _ _ _, HTTPError q _ _ _ => addr_eqb p q
  | otherError p t _ _, otherError q u _ _ => addr_eqb p q && String.eqb t u
  | _, _ => false
  end.

(** The loop of [errors.is]: compare, then follow [Unwrap]. *)
Fixpoint errors_is (err target : error) : bool :=
  match err with
  | nil_error => false
  | errorString _ _ => error_eqb err target
  | wrapError _ _ e => error_eqb err target || errors_is e target
  | wrapErrors _ _ es =>
      error_eqb err target ||
      (fix any (l : list error) : bool :=
         match l with
         | [] => false
         | e :: l' => errors_is e target || any l'
         end) es
  | HTTPError _ _ _ e => error_eqb err target || errors_is e target
  | otherError _ _ _ e => error_eqb err target || errors_is e target
  end.

(** [errors.Is]. *)
Definition errors_Is (err target : error) : bool :=
  if is_nil err || is_nil target then error_eqb err target
  else errors_is err target.

(** [%d] of an int. *)
Definition fmt_d (n : Z) : string := NilZero.string_of_int (Z.to_int n).

(** The [Error()] method.  That of [*echo.HTTPError] prints the code and the
    message, and the internal error when there is one. *)
Fixpoint Error (e : error) : string :=
  match e with
  | nil_error => "<nil>"
  | errorString _ s => s
  | wrapError _ msg _ => msg
  | wrapErrors _ msg _ => msg
  | HTTPError _ code m nil_error =>
      "code=" ++ fmt_d code ++ ", message=" ++ m
  | HTTPError _ code m internal =>
      "code=" ++ fmt_d code ++ ", message=" ++ m
      ++ ", internal=" ++ Error internal
  | otherError _ _ msg _ => msg
  end.

(** The heap is the index of its next free cell. *)
Definition heap : Type := nat.

Definition alloc (A : Type) : Type := heap -> A * heap.

(** [errors.New]: a fresh [*errorString]. *)
Definition errors_New (s : string) : alloc error :=
  fun h => (errorString (Dynamic h) s, S h).

(** [fmt.Errorf] whose format has no [%w]: [errors.New] of the text. *)
Definition fmt_Errorf (text : string) : alloc error := errors_New text.

(** [fmt.Errorf] whose format has one [%w]: a fresh [*wrapError] around the
    operand. *)
Definition fmt_Errorf_w (text : string) (operand : error) : alloc error :=
  fun h => (wrapError (Dynamic h) text operand, S h).

(** [slices.Contains] on a slice of strings. *)
Fixpoint slices_Contains (s : list string) (v : string) : bool :=
  match s with
  | [] => false
  | x :: s' => if String.eqb x v then true else slices_Contains s' v
  end.

(** [%v] of a slice whose elements are of string kind: the elements between
    square brackets, separated by one space. *)
Definition fmt_v_slice (s : list string) : string :=
  "[" ++ String.concat " " s ++ "]".

(** What running a piece of code yields: a value, or a run-time panic. *)
Inductive res (A : Type) : Type :=
| Val (a : A)
| Panicked (msg : string).
Arguments Val {A} a.
Arguments Panicked {A} msg.

(** Code that runs against a state [S] and may panic. *)
Definition M (S A : Type) : Type := S -> res A * S.

Definition ret {S A : Type} (a : A) : M S A := fun s => (Val a, s).

Definition bind {S A B : Type} (m : M S A) (k : A -> M S B) : M S B :=
  fun s =>
    match m s with
    | (Val a, s') => k a s'
    | (Panicked msg, s') => (Panicked msg, s')
    end.

Definition panic {S A : Type} (msg : string) : M S A :=
  fun s => (Panicked msg, s).

(** [returns m s a s']: run from [s], [m] returns [a] and leaves [s']. *)
Definition returns {S A : Type} (m : M S A) (s : S) (a : A) (s' : S) : Prop :=
  m s = (Val a, s').

Definition nil_dereference : string :=
  "invalid memory address or nil pointer dereference".

(** Everything outside the program's own data: the heap, and the
    environment [W] (network, clock, random source, the framework). *)
Record world (W : Type) : Type := mkWorld { wheap : heap; wext : W }.
Arguments mkWorld {W} wheap wext.
Arguments wheap {W} w.
Arguments wext {W} w.

(** [defer d] around [body]: [d] runs when [body] is left, by return or by
    panic; its results are dropped. *)
Definition defer {S A B : Type} (d : M S B) (body : M S A) : M S A :=
  fun s =>
    let (r, s') := body s in
    match d s' with
    | (Val _, s'') => (r, s'')
    | (Panicked msg, s'') => (Panicked msg, s'')
    end.

(** A [context.Context] is a handle; what it stands for (deadline,
    cancellation) lives in the environment. *)
Inductive context_Context : Type :=
| context_handle (id : nat).

(** An allocation, run against the world's heap. *)
Definition on_heap {W A : Type} (a : alloc A) : M (world W) A :=
  fun w => let (x, h') := a (wheap w) in (Val x, mkWorld h' (wext w)).

End Go.

Declare Scope go_scope.
Delimit Scope go_scope with go.
Notation "x <- m ;; k" := (Go.bind m (fun x => k))
(at level 100, m at next level, right associativity) : go_scope.
Notation "' p <- m ;; k" := (Go.bind m (fun p => k))
(at level 100, p pattern, m at next level, right associativity) : go_scope.

(** ** Package [turnstile]: the verifier client *)

Module turnstile.
Import Go.

Definition cloudflareTurnstileUrl : string :=
  "https://challenges.cloudflare.com/turnstile/v0/siteverify".

Definition turnstileErrorCode : Type := string.

Definition missingInputSecret : turnstileErrorCode := "missing-input-secret".
Definition invalidInputSecret : turnstileErrorCode := "invalid-input-secret".
Definition missingInputResponse : turnstileErrorCode := "missing-input-response".
Definition invalidInputResponse : turnstileErrorCode := "invalid-input-response".
Definition invalidWidgetID : turnstileErrorCode := "invalid-widget-id".
Definition invalidParsedSecret : turnstileErrorCode := "invalid-parsed-secret".
Definition badRequest : turnstileErrorCode := "bad-request".
Definition timeoutOrDuplicate : turnstileErrorCode := "timeout-or-duplicate".
Definition internalError : turnstileErrorCode := "internal-error".

(** The two sentinels, allocated when the package is initialised. *)
Definition ErrInvalidRequest : error :=
  errorString (Static 0) "invalid request".
Definition ErrValidationFailed : error :=
  errorString (Static 1) "response validation failed".

(** The codes that some rule of [mapErrorCodes] names. *)
Definition classified_codes : list turnstileErrorCode :=
  [internalError; invalidInputResponse; timeoutOrDuplicate; badRequest;
   missingInputSecret; invalidInputSecret; invalidParsedSecret;
   invalidWidgetID; missingInputResponse].

Definition mapErrorCodes (codes : list turnstileErrorCode) : alloc error :=
  if slices_Contains codes internalError then
    errors_New "turnstile server error"
  else if slices_Contains codes invalidInputResponse
          || slices_Contains codes timeoutOrDuplicate then
    fmt_Errorf_w ("invalid, duplicate or expired response: "
                  ++ fmt_v_slice codes ++ " " ++ Error ErrValidationFailed)
                 ErrValidationFailed
  else if slices_Contains codes badRequest
          || slices_Contains codes missingInputSecret
          || slices_Contains codes invalidInputSecret
          || slices_Contains codes invalidParsedSecret
          || slices_Contains codes missingInputSecret
          || slices_Contains codes invalidWidgetID
          || slices_Contains codes missingInputResponse then
    fmt_Errorf_w ("validation error(s) on turnstile: "
                  ++ fmt_v_slice codes ++ " " ++ Error ErrInvalidRequest)
                 ErrInvalidRequest
  else
    fmt_Errorf ("unhandled turnstile error: " ++ fmt_v_slice codes).

(** A [time.Time], counted from the zero instant. *)
Definition time_Time : Type := Z.

Record VerificationRequest : Type := mkVerificationRequest {
  Response : string;
  RemoteIP : string;
  IdempotencyKey : string
}.

Record VerificationResponse : Type := mkVerificationResponse {
  Success : bool;
  ChallengeTs : time_Time;
  Hostname : string;
  ErrorCodes : list turnstileErrorCode;
  Action : string;
  Cdata : string
}.

(** [&VerificationResponse{}]. *)
Definition zero_VerificationResponse : VerificationResponse :=
  mkVerificationResponse false 0%Z "" [] "" "".

(** The anonymous struct [Verify] marshals. *)
Record requestWithSecret : Type := mkRequestWithSecret {
  inline : VerificationRequest;
  Secret : string
}.

(** The standard-library calls [Verify] makes.  Each may read and change the
    world, and reports failure the Go way, by a non-nil [error] beside its
    result; a pointer result may be nil ([None]). *)
Record stdlib (W : Type) : Type := mkStdlib {
  http_Request : Type;
  http_Response : Type;
  json_Marshal : requestWithSecret -> M (world W) (list Byte.byte * error);
  http_NewRequestWithContext :
    context_Context -> string -> string -> list Byte.byte ->
    M (world W) (option http_Request * error);
  Header_Set : http_Request -> string -> string -> http_Request;
  Client_Do : http_Request -> M (world W) (option http_Response * error);
  Body_Close : http_Response -> M (world W) error;
  Decoder_Decode :
    http_Response -> VerificationResponse ->
    M (world W) (VerificationResponse * error)
}.
Arguments http_Request {W} s.
Arguments http_Response {W} s.
Arguments json_Marshal {W} s _ _.
Arguments http_NewRequestWithContext {W} s _ _ _ _ _.
Arguments Header_Set {W} s _ _ _.
Arguments Client_Do {W} s _ _.
Arguments Body_Close {W} s _ _.
Arguments Decoder_Decode {W} s _ _ _.

(** The interface [Verifier]. *)
Record Verifier (W : Type) : Type := mkVerifier {
  Verify :
    context_Context -> option VerificationRequest ->
    M (world W) (option VerificationResponse * error)
}.
Arguments mkVerifier {W} Verify.
Arguments Verify {W} v _ _ _.

Record verifierClient : Type := mkVerifierClient {
  secret : string;
  url : string
}.

Section Client.
Context {W : Type} (L : stdlib W).
Local Open Scope go_scope.

Definition verifierClient_Verify (t : verifierClient) (ctx : context_Context)
    (req : option VerificationRequest)
    : M (world W) (option VerificationResponse * error) :=
  match req with
  | None => panic nil_dereference
  | Some r =>
    let requestWithSecret := mkRequestWithSecret r (secret t) in
    '(requestJSON, err) <- json_Marshal L requestWithSecret ;;
    if negb (is_nil err) then
      e <- on_heap (fmt_Errorf_w
                  ("can not marshall verification request to JSON: "
                   ++ Error err) err) ;;
      ret (None, e)
    else
    '(httpReq, err) <-
       http_NewRequestWithContext L ctx "POST" (url t) requestJSON ;;
    if negb (is_nil err) then
      e <- on_heap (fmt_Errorf_w
                  ("can not create HTTP request: " ++ Error err) err) ;;
      ret (None, e)
    else
    match httpReq with
    | None => panic nil_dereference
    | Some httpReq =>
      let httpReq := Header_Set L httpReq "Content-Type" "application/json" in
      '(httpResp, err) <- Client_Do L httpReq ;;
      if negb (is_nil err) then
        e <- on_heap (fmt_Errorf_w
                    ("error sending HTTP request: " ++ Error err) err) ;;
        ret (None, e)
      else
      match httpResp with
      | None => panic nil_dereference
      | Some httpResp =>
        defer (Body_Close L httpResp)
          ('(resp, err) <- Decoder_Decode L httpResp zero_VerificationResponse ;;
           if negb (is_nil err) then
             e <- on_heap (fmt_Errorf_w
                         ("can not decode turnstile response into JSON: "
                          ++ Error err) err) ;;
             ret (None, e)
           else if negb (Success resp) then
             e <- on_heap (mapErrorCodes (ErrorCodes resp)) ;;
             ret (Some resp, e)
           else
             ret (Some resp, nil_error))
      end
    end
  end.

(** [decodes t ctx r w httpResp resp w']: run from [w] on the request [r],
    [Verify] marshals, builds and sends the HTTP request without error, and
    decodes the body of [httpResp] into [resp] without error, which leaves
    the world [w']. *)
Definition decodes (t : verifierClient) (ctx : context_Context)
    (r : VerificationRequest) (w : world W) (httpResp : http_Response L)
    (resp : VerificationResponse) (w' : world W) : Prop :=
  exists requestJSON w1 httpReq w2 w3,
    returns (json_Marshal L (mkRequestWithSecret r (secret t))) w
            (requestJSON, nil_error) w1 /\
    returns (http_NewRequestWithContext L ctx "POST" (url t) requestJSON) w1
            (Some httpReq, nil_error) w2 /\
    returns (Client_Do L (Header_Set L httpReq "Content-Type"
                                     "application/json")) w2
            (Some httpResp, nil_error) w3 /\
    returns (Decoder_Decode L httpResp zero_VerificationResponse) w3
            (resp, nil_error) w'.

(** [*verifierClient] as a [Verifier]. *)
Definition verifierClient_Verifier (t : verifierClient) : Verifier W :=
  mkVerifier (verifierClient_Verify t).

Definition NewVerifierClient (secret : string) : Verifier W :=
  verifierClient_Verifier (mkVerifierClient secret cloudflareTurnstileUrl).

Definition NewVerifierClientWithURL (secret : string) (url : string)
    : Verifier W :=
  verifierClient_Verifier (mkVerifierClient secret url).

End Client.

End turnstile.

(** ** The parts of Echo the middleware relies on *)

Module echo.
Import Go.

(** An [echo.Context], as far as the middleware reads it:
    [c.Request().Header.Get], [c.RealIP()] and [c.Request().Context()]. *)
Record Context : Type := mkContext {
  Request_Header_Get : string -> string;
  RealIP : string;
  Request_Context : context_Context
}.

Definition HeaderXRequestID : string := "X-Request-Id".

(** [echo.NewHTTPError(code, message)]: a fresh [*HTTPError] without internal
    error. *)
Definition NewHTTPError (code : Z) (message : string) : alloc error :=
  fun h => (HTTPError (Dynamic h) code message nil_error, S h).

(** [echo.ErrBadRequest], a package-level [*HTTPError] for status 400. *)
Definition ErrBadRequest : error :=
  HTTPError (Static 2) 400 "Bad Request" nil_error.

Definition HTTPError_Code (e : error) : Z :=
  match e with
  | HTTPError _ code _ _ => code
  | _ => 0%Z
  end.

Section Funcs.
Context {W : Type}.

Definition HandlerFunc : Type := Context -> M (world W) error.

(** [middleware.Skipper]. *)
Definition Skipper : Type := Context -> M (world W) bool.

(** [middleware.DefaultSkipper] skips nothing. *)
Definition DefaultSkipper : Skipper := fun _ => ret false.

End Funcs.
Arguments HandlerFunc W : clear implicits.
Arguments Skipper W : clear implicits.

End echo.

(** ** Package [echoturnstile]: the middleware gate *)

Module echoturnstile.
Import Go turnstile.

Definition defaultCloudFlareTurnstileHeaderKey : string :=
  "cf-turnstile-response".
Definition defaultCloudFlareRemoteIPHeader : string := "CF-Connecting-IP".

Section Gate.
Context {W : Type} (L : stdlib W).
(** [middleware.DefaultRequestIDConfig.Generator], Echo's generator of
    random request identifiers. *)
Context (DefaultRequestIDConfig_Generator : M (world W) string).
Local Open Scope go_scope.

Definition TurnstileResponseExtractorFunc : Type :=
  echo.Context -> M (world W) (string * error).
Definition RemoteIPExtractorFunc : Type :=
  echo.Context -> M (world W) (string * error).
Definition IdempotencyKeyExtractorFunc : Type :=
  echo.Context -> M (world W) (string * error).

(** A field of func or interface type holds a value or nil ([None]). *)
Record middleware : Type := mkMiddleware {
  skipper : option (echo.Skipper W);
  turnstileVerifier : option (Verifier W);
  turnstileResponseExtractorFunc : option TurnstileResponseExtractorFunc;
  remoteIPExtractorFunc : option RemoteIPExtractorFunc;
  idempotencyKeyExtractorFunc : option IdempotencyKeyExtractorFunc
}.

(** The last three fields bear the names of their types in the source; here
    they take a trailing underscore. *)
Record Config : Type := mkConfig {
  Skipper : option (echo.Skipper W);
  TurnstileVerifier : option (Verifier W);
  TurnstileResponseExtractorFunc_ : option TurnstileResponseExtractorFunc;
  RemoteIPExtractorFunc_ : option RemoteIPExtractorFunc;
  IdempotencyKeyExtractorFunc_ : option IdempotencyKeyExtractorFunc
}.

(** [Config{}]. *)
Definition zero_Config : Config := mkConfig None None None None None.

(** *** The extractors *)

Definition requestHeaderTurnstileResponseExtractor_Extract
    (headerName : string) : TurnstileResponseExtractorFunc :=
  fun c =>
    let val := echo.Request_Header_Get c headerName in
    if String.eqb val "" then
      e <- on_heap (echo.NewHTTPError (echo.HTTPError_Code echo.ErrBadRequest)
                      ("expected turnstile response in header "
                       ++ headerName)) ;;
      ret ("", e)
    else ret (val, nil_error).

Definition RequestHeaderTurnstileResponseExtractorFuncWithHeaderName
    (headerName : string) : TurnstileResponseExtractorFunc :=
  requestHeaderTurnstileResponseExtractor_Extract headerName.

Definition RequestHeaderTurnstileResponseExtractorFunc
    : TurnstileResponseExtractorFunc :=
  RequestHeaderTurnstileResponseExtractorFuncWithHeaderName
    defaultCloudFlareTurnstileHeaderKey.

Definition EchoRemoteIPExtractor : RemoteIPExtractorFunc :=
  fun c => ret (echo.RealIP c, nil_error).

Definition requestHeaderRemoteIPExtractor_Extract (headerName : string)
    : RemoteIPExtractorFunc :=
  fun c =>
    let val := echo.Request_Header_Get c headerName in
    if String.eqb val "" then
      e <- on_heap (fmt_Errorf_w
                      ("expected turnstile response in header " ++ headerName
                       ++ ": " ++ Error echo.ErrBadRequest)
                      echo.ErrBadRequest) ;;
      ret ("", e)
    else ret (val, nil_error).

Definition CloudFlareRequestHeaderRemoteIPExtractor : RemoteIPExtractorFunc :=
  requestHeaderRemoteIPExtractor_Extract defaultCloudFlareRemoteIPHeader.

Definition EchoIdempotencyKeyExtractor : IdempotencyKeyExtractorFunc :=
  fun c =>
    let requestId := echo.Request_Header_Get c echo.HeaderXRequestID in
    if String.eqb requestId "" then
      requestId <- DefaultRequestIDConfig_Generator ;;
      ret (requestId, nil_error)
    else ret (requestId, nil_error).

(** *** The gate *)

(** The calls [Process] makes through the middleware's fields and to the
    downstream handler, with their arguments. *)
Inductive call : Type :=
| call_skipper (c : echo.Context)
| call_turnstileResponseExtractorFunc (c : echo.Context)
| call_remoteIPExtractorFunc (c : echo.Context)
| call_idempotencyKeyExtractorFunc (c : echo.Context)
| call_Verify (ctx : context_Context) (req : option VerificationRequest)
| call_next (c : echo.Context).

(** The state [Process] runs against: the world, and the record of the calls
    made so far, which the callees neither see nor change. *)
Record trace : Type := mkTrace { tworld : world W; calls : list call }.

(** Calling a func value: nil panics; otherwise the call is recorded and the
    callee runs against the world. *)
Definition invoke {A : Type} (ev : call) (f : option (M (world W) A))
    : M trace A :=
  fun s =>
    match f with
    | None => (Panicked nil_dereference, s)
    | Some g =>
      let (r, w') := g (tworld s) in
      (r, mkTrace w' (calls s ++ [ev]))
    end.

(** Code of the middleware itself that touches only the world. *)
Definition in_world {A : Type} (m : M (world W) A) : M trace A :=
  fun s => let (r, w') := m (tworld s) in (r, mkTrace w' (calls s)).

Definition Process (mw : middleware) (next : option (echo.HandlerFunc W))
    (c : echo.Context) : M trace error :=
  skip <- invoke (call_skipper c) (option_map (fun f => f c) (skipper mw)) ;;
  if (skip : bool) then
    invoke (call_next c) (option_map (fun f => f c) next)
  else
  '(turnstileResponseValue, err) <-
     invoke (call_turnstileResponseExtractorFunc c)
            (option_map (fun f => f c) (turnstileResponseExtractorFunc mw)) ;;
  if negb (is_nil err) then ret err else
  '(remoteIP, err) <-
     invoke (call_remoteIPExtractorFunc c)
            (option_map (fun f => f c) (remoteIPExtractorFunc mw)) ;;
  if negb (is_nil err) then ret err else
  '(idempotencyKey, err) <-
     invoke (call_idempotencyKeyExtractorFunc c)
            (option_map (fun f => f c) (idempotencyKeyExtractorFunc mw)) ;;
  if negb (is_nil err) then ret err else
  let req :=
    Some (mkVerificationRequest turnstileResponseValue remoteIP
                                idempotencyKey) in
  '(_, err) <-
     invoke (call_Verify (echo.Request_Context c) req)
            (option_map (fun v => Verify v (echo.Request_Context c) req)
                        (turnstileVerifier mw)) ;;
  if negb (is_nil err) then
    if errors_Is err ErrValidationFailed then
      in_world (on_heap (echo.NewHTTPError
                           (echo.HTTPError_Code echo.ErrBadRequest)
                           "CloudFlare Turnstile verification failed"))
    else ret err
  else
    invoke (call_next c) (option_map (fun f => f c) next).

(** [extracts mw c w req w']: run from [w] on the request [c], the skip
    predicate of [mw] answers no and its three extractors return, without
    error, the three fields of [req], which leaves the world [w']. *)
Definition extracts (mw : middleware) (c : echo.Context) (w : world W)
    (req : VerificationRequest) (w' : world W) : Prop :=
  exists sk tok ip key w1 w2 w3,
    skipper mw = Some sk /\
    turnstileResponseExtractorFunc mw = Some tok /\
    remoteIPExtractorFunc mw = Some ip /\
    idempotencyKeyExtractorFunc mw = Some key /\
    returns (sk c) w false w1 /\
    returns (tok c) w1 (Response req, nil_error) w2 /\
    returns (ip c) w2 (RemoteIP req, nil_error) w3 /\
    returns (key c) w3 (IdempotencyKey req, nil_error) w'.

(** The calls an extraction without failure records. *)
Definition extraction_calls (c : echo.Context) : list call :=
  [call_skipper c; call_turnstileResponseExtractorFunc c;
   call_remoteIPExtractorFunc c; call_idempotencyKeyExtractorFunc c].

(** The struct [NewMiddlewareWithConfig] builds before it returns the
    struct's [Process]. *)
Definition NewMiddlewareWithConfig_mw (secret : string) (cfg : Config)
    : middleware :=
  let skipper : option (echo.Skipper W) :=
    match Skipper cfg with
    | None => Some echo.DefaultSkipper
    | Some _ => None
    end in
  let turnstileVerifier : option (Verifier W) :=
    match TurnstileVerifier cfg with
    | None => Some (NewVerifierClient L secret)
    | Some _ => None
    end in
  let turnstileResponseExtractorFunc : option TurnstileResponseExtractorFunc :=
    match TurnstileResponseExtractorFunc_ cfg with
    | None => Some RequestHeaderTurnstileResponseExtractorFunc
    | Some _ => None
    end in
  let remoteIpExtractorFunc : option RemoteIPExtractorFunc :=
    match RemoteIPExtractorFunc_ cfg with
    | None => Some EchoRemoteIPExtractor
    | Some _ => None
    end in
  let idempotencyKeyExtractorFunc : option IdempotencyKeyExtractorFunc :=
    match IdempotencyKeyExtractorFunc_ cfg with
    | None => Some EchoIdempotencyKeyExtractor
    | Some _ => None
    end in
  mkMiddleware skipper turnstileVerifier turnstileResponseExtractorFunc
               remoteIpExtractorFunc idempotencyKeyExtractorFunc.

(** [echo.MiddlewareFunc], with the calls of the wrapped handler recorded. *)
Definition MiddlewareFunc : Type :=
  option (echo.HandlerFunc W) -> echo.Context -> M trace error.

Definition NewMiddlewareWithConfig (secret : string) (cfg : Config)
    : MiddlewareFunc :=
  Process (NewMiddlewareWithConfig_mw secret cfg).

Definition NewMiddleware (secret : string) : MiddlewareFunc :=
  NewMiddlewareWithConfig secret zero_Config.

End Gate.
End echoturnstile.

(** ** Test doubles

    A closed environment in which the code above runs: the world counts the
    outbound HTTP calls made so far, the transport answers every call with a
    canned verification response. *)

Module doubles.
Import Go turnstile echoturnstile.

Definition W : Type := nat.

Definition canned_stdlib (answer : VerificationResponse) : stdlib W :=
  mkStdlib W
    (list Byte.byte * list (string * string))
    VerificationResponse
    (fun _ => ret ([], nil_error))
    (fun _ _ _ body => ret (Some (body, []), nil_error))
    (fun r k v => (fst r, (k, v) :: snd r))
    (fun _ w => (Val (Some answer, nil_error), mkWorld (wheap w) (S (wext w))))
    (fun _ => ret nil_error)
    (fun r _ => ret (r, nil_error)).

Definition accepted : VerificationResponse :=
  mkVerificationResponse true 1700000000%Z "example.com" [] "login" "".

(** Success reported together with a left-over error code. *)
Definition accepted_with_codes : VerificationResponse :=
  mkVerificationResponse true 1700000000%Z "example.com"
                         [timeoutOrDuplicate] "login" "".

Definition rejected (codes : list turnstileErrorCode) : VerificationResponse :=
  mkVerificationResponse false 0%Z "" codes "" "".

Definition Generator : M (world W) string :=
  fun w => (Val "fGq1nB7xsP0aZk3TtY9uLw2RrE5cHd8M", w).

Definition request_with_token : echo.Context :=
  echo.mkContext
    (fun name =>
       if String.eqb name defaultCloudFlareTurnstileHeaderKey
       then "XXXX.DUMMY.TOKEN.XXXX" else "")
    "203.0.113.7"
    (context_handle 0).

Definition request_without_token : echo.Context :=
  echo.mkContext (fun _ => "") "203.0.113.7" (context_handle 0).

(** The handler of the example program: [c.NoContent(204)]. *)
Definition NoContent : echo.HandlerFunc W := fun _ => ret nil_error.

Definition skip_all : echo.Skipper W := fun _ => ret true.

(** A package-level error of the test program, and an extractor that
    always fails with it. *)
Definition ErrNoKey : error := errorString (Static 3) "no idempotency key".

Definition failing_extractor : echo.Context -> M (world W) (string * error) :=
  fun _ => ret ("", ErrNoKey).

(** A verifier that makes no outbound call and answers with the given
    response, classified the way the client classifies it. *)
Definition stub_verifier (resp : VerificationResponse) : Verifier W :=
  mkVerifier
    (fun _ _ =>
       if negb (Success resp) then
         bind (on_heap (mapErrorCodes (ErrorCodes resp)))
              (fun e => ret (Some resp, e))
       else ret (Some resp, nil_error)).

(** The gate with the default skip predicate and the default extractors
    around a given verifier. *)
Definition gate_around (v : Verifier W) : @middleware W :=
  mkMiddleware
    (Some echo.DefaultSkipper)
    (Some v)
    (Some RequestHeaderTurnstileResponseExtractorFunc)
    (Some EchoRemoteIPExtractor)
    (Some (EchoIdempotencyKeyExtractor Generator)).

Definition start : world W := mkWorld 0 0.

Definition some_request : VerificationRequest :=
  mkVerificationRequest "XXXX.DUMMY.TOKEN.XXXX" "203.0.113.7"
                        "fGq1nB7xsP0aZk3TtY9uLw2RrE5cHd8M".

Definition client : verifierClient :=
  mkVerifierClient "1x0000000000000000000000000000000AA" cloudflareTurnstileUrl.

End doubles.

(** A second environment, in which each step of [Verify] can be made to
    fail: the world counts the HTTP calls sent and the response bodies
    closed. *)

Module faults.
Import Go turnstile echoturnstile.

Definition W : Type := (nat * nat)%type.

Definition ErrUnsupported : error :=
  otherError (Static 4) "*json.UnsupportedTypeError"
             "json: unsupported type" nil_error.
Definition ErrMissingScheme : error :=
  otherError (Static 5) "*url.Error"
             "parse: missing protocol scheme" nil_error.
Definition ErrRefused : error :=
  otherError (Static 6) "*net.OpError"
             "dial tcp: connection refused" nil_error.
Definition ErrSyntax : error :=
  otherError (Static 7) "*json.SyntaxError"
             "invalid character looking for beginning of value" nil_error.

(** Each call fails with the error given for it when that error is not nil;
    a call that is sent is counted, and so is a body that is closed. *)
Definition faulty_stdlib (marshal newRequest send decode : error)
    (answer : VerificationResponse) : stdlib W :=
  mkStdlib W
    (list Byte.byte * list (string * string))
    VerificationResponse
    (fun _ => ret ([], marshal))
    (fun _ _ _ body =>
       if is_nil newRequest then ret (Some (body, []), nil_error)
       else ret (None, newRequest))
    (fun r k v => (fst r, (k, v) :: snd r))
    (fun _ w =>
       (Val (if is_nil send then Some answer else None, send),
        mkWorld (wheap w) (S (fst (wext w)), snd (wext w))))
    (fun _ w =>
       (Val nil_error, mkWorld (wheap w) (fst (wext w), S (snd (wext w)))))
    (fun r _ => ret (r, decode)).

Definition start : world W := mkWorld 0 (0, 0).

Definition Generator : M (world W) string :=
  fun w => (Val "fGq1nB7xsP0aZk3TtY9uLw2RrE5cHd8M", w).

Definition NoContent : echo.HandlerFunc W := fun _ => ret nil_error.

(** A request that carries a token and a request identifier of its own. *)
Definition request_with_id : echo.Context :=
  echo.mkContext
    (fun name =>
       if String.eqb name defaultCloudFlareTurnstileHeaderKey
       then "XXXX.DUMMY.TOKEN.XXXX"
       else if String.eqb name echo.HeaderXRequestID
       then "req-7f3a" else "")
    "203.0.113.7"
    (context_handle 0).

End faults.

(** Runs [Process] along the calls whose results the context gives. *)
Ltac run_process :=
  unfold Go.returns in *;
  unfold echoturnstile.Process, Go.bind, echoturnstile.invoke,
    echoturnstile.in_world, Go.on_heap, Go.ret;
  repeat match goal with
    | H : ?f = Some _ |- context [?f] => rewrite H
    | H : ?m ?w = (_, _) |- context [?m ?w] => rewrite H
    | H : Go.is_nil ?e = _ |- context [Go.is_nil ?e] => rewrite H
    | H : Go.errors_Is ?e ?t = _ |- context [Go.errors_Is ?e ?t] => rewrite H
    | |- _ => progress cbn [option_map echoturnstile.tworld echoturnstile.calls
                      Go.is_nil negb fst snd]
    end;
  repeat rewrite <- app_assoc;
  cbn [app].

(** Case analysis on everything the goal branches on, innermost first. *)
Ltac cases :=
  repeat match goal with
    | |- context [match ?x with _ => _ end] =>
        lazymatch x with
        | context [match _ with _ => _ end] => fail
        | _ => destruct x eqn:?
        end
    end.

(** * Properties *)

(** ** Error classification and [Verify] *)

Module turnstile_spec.
Import Go turnstile.

Lemma slices_Contains_In (s : list string) (v : string) :
  slices_Contains s v = true <-> In v s.
Proof.
  induction s as [|x s IH]; simpl.
  - split; [discriminate | tauto].
  - destruct (String.eqb_spec x v) as [->|Hne].
    + split; auto.
    + rewrite IH. split; [auto | intros [E|H]; [contradiction | exact H]].
Qed.

Lemma slices_Contains_not_In (s : list string) (v : string) :
  slices_Contains s v = false <-> ~ In v s.
Proof.
  rewrite <- slices_Contains_In.
  destruct (slices_Contains s v); split; intro H; try discriminate; auto.
  exfalso; apply H; reflexivity.
Qed.

(** Neither sentinel is met along the chain of a freshly allocated
    [*errorString]. *)
Lemma fresh_errorString_is_no_sentinel (h : heap) (s : string) :
  errors_Is (errorString (Dynamic h) s) ErrValidationFailed = false /\
  errors_Is (errorString (Dynamic h) s) ErrInvalidRequest = false.
Proof. split; reflexivity. Qed.

(** C3: a code list that contains [internal-error] is mapped to the fresh
    error "turnstile server error", which matches neither
    [ErrValidationFailed] nor [ErrInvalidRequest] under [errors.Is], whatever
    other codes the list holds. *)
Theorem mapErrorCodes_internal_error
    (codes : list turnstileErrorCode) (h : heap) :
  In internalError codes ->
  let err := fst (mapErrorCodes codes h) in
  err = errorString (Dynamic h) "turnstile server error" /\
  errors_Is err ErrValidationFailed = false /\
  errors_Is err ErrInvalidRequest = false.
Proof.
  intros Hin. apply slices_Contains_In in Hin.
  unfold mapErrorCodes. rewrite Hin. cbn [fst errors_New].
  split; [reflexivity | apply fresh_errorString_is_no_sentinel].
Qed.

Lemma mapErrorCodes_internal_error_witness :
  In internalError [timeoutOrDuplicate; internalError; badRequest] /\
  errors_Is
    (fst (mapErrorCodes [timeoutOrDuplicate; internalError; badRequest] 7))
    ErrValidationFailed = false.
Proof.
  assert (H : In internalError [timeoutOrDuplicate; internalError; badRequest])
    by (simpl; tauto).
  split; [exact H |].
  exact (proj1 (proj2 (mapErrorCodes_internal_error _ 7 H))).
Defined.

(** C4: a code list that contains [invalid-input-response] or
    [timeout-or-duplicate], and not [internal-error], is mapped to an error
    that matches [ErrValidationFailed] under [errors.Is]. *)
Theorem mapErrorCodes_validation_failed
    (codes : list turnstileErrorCode) (h : heap) :
  In invalidInputResponse codes \/ In timeoutOrDuplicate codes ->
  ~ In internalError codes ->
  errors_Is (fst (mapErrorCodes codes h)) ErrValidationFailed = true.
Proof.
  intros Hin Hno. apply slices_Contains_not_In in Hno.
  unfold mapErrorCodes. rewrite Hno.
  assert (E : slices_Contains codes invalidInputResponse
              || slices_Contains codes timeoutOrDuplicate = true).
  { apply orb_true_iff.
    destruct Hin as [H|H]; [left | right]; apply slices_Contains_In, H. }
  rewrite E. reflexivity.
Qed.

Lemma mapErrorCodes_validation_failed_witness :
  errors_Is (fst (mapErrorCodes [badRequest; timeoutOrDuplicate] 3))
            ErrValidationFailed = true.
Proof.
  apply mapErrorCodes_validation_failed.
  - right. simpl. tauto.
  - simpl. intros [H|[H|[]]]; discriminate H.
Defined.

(** C5: a code list that contains one of [bad-request],
    [missing-input-secret], [invalid-input-secret], [invalid-parsed-secret],
    [invalid-widget-id], [missing-input-response], and none of
    [internal-error], [invalid-input-response], [timeout-or-duplicate], is
    mapped to an error that matches [ErrInvalidRequest] under [errors.Is]. *)
Theorem mapErrorCodes_invalid_request
    (codes : list turnstileErrorCode) (h : heap) :
  In badRequest codes \/ In missingInputSecret codes \/
  In invalidInputSecret codes \/ In invalidParsedSecret codes \/
  In invalidWidgetID codes \/ In missingInputResponse codes ->
  ~ In internalError codes ->
  ~ In invalidInputResponse codes ->
  ~ In timeoutOrDuplicate codes ->
  errors_Is (fst (mapErrorCodes codes h)) ErrInvalidRequest = true.
Proof.
  intros Hin H1 H2 H3.
  apply slices_Contains_not_In in H1, H2, H3.
  unfold mapErrorCodes. rewrite H1, H2, H3. cbn [orb].
  assert (E : slices_Contains codes badRequest
              || slices_Contains codes missingInputSecret
              || slices_Contains codes invalidInputSecret
              || slices_Contains codes invalidParsedSecret
              || slices_Contains codes missingInputSecret
              || slices_Contains codes invalidWidgetID
              || slices_Contains codes missingInputResponse = true).
  { rewrite !orb_true_iff.
    destruct Hin as [H|[H|[H|[H|[H|H]]]]];
      apply slices_Contains_In in H; tauto. }
  rewrite E. reflexivity.
Qed.

Lemma mapErrorCodes_invalid_request_witness :
  errors_Is (fst (mapErrorCodes [invalidWidgetID] 0)) ErrInvalidRequest = true.
Proof.
  apply mapErrorCodes_invalid_request.
  - right; right; right; right; left. simpl. tauto.
  - simpl. intros [H|[]]; discriminate H.
  - simpl. intros [H|[]]; discriminate H.
  - simpl. intros [H|[]]; discriminate H.
Defined.

(** Whatever the codes, [mapErrorCodes] returns a non-nil error. *)
Lemma mapErrorCodes_not_nil (codes : list turnstileErrorCode) (h : heap) :
  is_nil (fst (mapErrorCodes codes h)) = false.
Proof.
  unfold mapErrorCodes.
  repeat match goal with |- context [if ?b then _ else _] => destruct b end;
    reflexivity.
Qed.

Section Verify.
Context {W : Type} (L : stdlib W).

(** A decoded response that does not report success: [Verify] returns it
    together with the error [mapErrorCodes] makes of its codes. *)
Lemma Verify_not_success (t : verifierClient) (ctx : context_Context)
    (r : VerificationRequest) (w : world W) (httpResp : http_Response L)
    (resp : VerificationResponse) (w' : world W) (x : error) (w'' : world W) :
  decodes L t ctx r w httpResp resp w' ->
  Success resp = false ->
  returns (Body_Close L httpResp)
          (mkWorld (snd (mapErrorCodes (ErrorCodes resp) (wheap w'))) (wext w'))
          x w'' ->
  returns (verifierClient_Verify L t ctx (Some r)) w
          (Some resp, fst (mapErrorCodes (ErrorCodes resp) (wheap w'))) w''.
Proof.
  intros (requestJSON & w1 & httpReq & w2 & w3 & Hm & Hn & Hd & Hj) Hs Hc.
  unfold returns in *. unfold verifierClient_Verify, bind.
  rewrite Hm. cbn [is_nil negb]. rewrite Hn. cbn [is_nil negb].
  rewrite Hd. cbn [is_nil negb]. unfold defer. rewrite Hj. cbn [is_nil negb].
  rewrite Hs. cbn [negb]. unfold on_heap.
  destruct (mapErrorCodes (ErrorCodes resp) (wheap w')) as [e h'] eqn:E.
  cbn [fst snd] in *. unfold ret. rewrite Hc. reflexivity.
Qed.

(** A decoded response that reports success: [Verify] returns it with a nil
    error and does not look at its codes. *)
Lemma Verify_success (t : verifierClient) (ctx : context_Context)
    (r : VerificationRequest) (w : world W) (httpResp : http_Response L)
    (resp : VerificationResponse) (w' : world W) (x : error) (w'' : world W) :
  decodes L t ctx r w httpResp resp w' ->
  Success resp = true ->
  returns (Body_Close L httpResp) w' x w'' ->
  returns (verifierClient_Verify L t ctx (Some r)) w (Some resp, nil_error) w''.
Proof.
  intros (requestJSON & w1 & httpReq & w2 & w3 & Hm & Hn & Hd & Hj) Hs Hc.
  unfold returns in *. unfold verifierClient_Verify, bind.
  rewrite Hm. cbn [is_nil negb]. rewrite Hn. cbn [is_nil negb].
  rewrite Hd. cbn [is_nil negb]. unfold defer. rewrite Hj. cbn [is_nil negb].
  rewrite Hs. cbn [negb]. unfold ret. rewrite Hc. reflexivity.
Qed.

(** C6: a code list that holds none of the codes the rules name (the empty
    list among them) is mapped to a fresh, non-nil error whose text carries
    the list as [%v] prints it, and which matches neither sentinel; and when
    [Verify] decodes a response that does not report success, it returns the
    response together with the error [mapErrorCodes] makes of its codes,
    which is never nil. *)
Theorem mapErrorCodes_unclassified
    (codes : list turnstileErrorCode) (h : heap) :
  (forall c, In c classified_codes -> ~ In c codes) ->
  let err := fst (mapErrorCodes codes h) in
  (err = errorString (Dynamic h)
                     ("unhandled turnstile error: " ++ fmt_v_slice codes) /\
   is_nil err = false /\
   errors_Is err ErrValidationFailed = false /\
   errors_Is err ErrInvalidRequest = false) /\
  (forall t ctx r w httpResp resp w' x w'',
     decodes L t ctx r w httpResp resp w' ->
     Success resp = false ->
     returns (Body_Close L httpResp)
             (mkWorld (snd (mapErrorCodes (ErrorCodes resp) (wheap w')))
                      (wext w')) x w'' ->
     let e := fst (mapErrorCodes (ErrorCodes resp) (wheap w')) in
     returns (verifierClient_Verify L t ctx (Some r)) w (Some resp, e) w'' /\
     is_nil e = false /\
     (ErrorCodes resp = codes -> wheap w' = h -> e = err)).
Proof.
  intros Hno err. split.
  - assert (N : forall c, In c classified_codes ->
                          slices_Contains codes c = false).
    { intros c Hc. apply slices_Contains_not_In, Hno, Hc. }
    subst err. unfold mapErrorCodes.
    rewrite !N by (unfold classified_codes; simpl; tauto).
    cbn [orb fst fmt_Errorf errors_New].
    repeat split; try reflexivity.
  - intros t ctx r w httpResp resp w' x w'' Hd Hs Hc e.
    split; [| split].
    + eapply Verify_not_success; eassumption.
    + apply mapErrorCodes_not_nil.
    + subst e err. intros -> ->. reflexivity.
Qed.

End Verify.

Lemma mapErrorCodes_unclassified_witness :
  fst (mapErrorCodes [] 5)
  = errorString (Dynamic 5) "unhandled turnstile error: []" /\
  returns (verifierClient_Verify
             (doubles.canned_stdlib (doubles.rejected ["unknown-code"]))
             doubles.client (context_handle 0) (Some doubles.some_request))
          doubles.start
          (Some (doubles.rejected ["unknown-code"]),
           errorString (Dynamic 0) "unhandled turnstile error: [unknown-code]")
          (mkWorld 1 1).
Proof.
  pose (codes := ["unknown-code"]). pose (r := doubles.some_request).
  change ["unknown-code"] with codes. split.
  - refine (proj1 (proj1 (mapErrorCodes_unclassified
                            (doubles.canned_stdlib (doubles.rejected codes))
                            [] 5 _))).
    intros c _ [].
  - assert (Hno : forall c, In c classified_codes -> ~ In c codes).
    { intros c Hc [E|[]]. subst c. simpl in Hc.
      repeat (destruct Hc as [Hc|Hc]; [discriminate Hc |]). exact Hc. }
    refine (proj1 (proj2 (mapErrorCodes_unclassified
                            (doubles.canned_stdlib (doubles.rejected codes))
                            codes 0 Hno)
                         doubles.client (context_handle 0) r doubles.start
                         (doubles.rejected codes) (doubles.rejected codes)
                         (mkWorld 0 1) nil_error (mkWorld 1 1) _ _ _)).
    + exists [], doubles.start, ([], []), doubles.start, (mkWorld 0 1).
      repeat split.
    + reflexivity.
    + reflexivity.
Defined.

End turnstile_spec.

(** ** The middleware gate *)

Module echoturnstile_spec.
Import Go turnstile echoturnstile.

Section Gate.
Context {W : Type}.
Implicit Types (mw : @middleware W) (c : echo.Context) (w : world W)
  (log : list call).

(** C9: when the skip predicate answers yes, the middleware calls the
    downstream handler at once, on the request it was given, in the world the
    predicate left, and returns what the handler returns; the calls made are
    the predicate and the handler, so no extractor and no verifier runs. *)
Theorem skip_passes_through mw (handler : echo.HandlerFunc W) c
    (sk : echo.Skipper W) w w1 log :
  skipper mw = Some sk ->
  returns (sk c) w true w1 ->
  Process mw (Some handler) c (mkTrace w log)
  = (fst (handler c w1),
     mkTrace (snd (handler c w1)) (log ++ [call_skipper c; call_next c])).
Proof.
  intros Hsk Hrun. run_process.
  destruct (handler c w1) as [r w2]. run_process. reflexivity.
Qed.

(** C8: when the skip predicate answers no and the token extractor returns
    an error, the middleware returns that very error and the calls made are
    the predicate and the token extractor: neither of the other extractors,
    nor the verifier, nor the handler runs.  When the token extractor
    succeeds and the remote-IP extractor returns an error, that error is
    returned and the idempotency-key extractor, the verifier and the handler
    do not run; and likewise, one step later, for the idempotency-key
    extractor. *)
Theorem extractor_failure_short_circuits mw
    (next : option (echo.HandlerFunc W)) c
    (sk : echo.Skipper W) (tok : TurnstileResponseExtractorFunc)
    w w1 w2 log (token : string) (e1 : error) :
  skipper mw = Some sk ->
  turnstileResponseExtractorFunc mw = Some tok ->
  returns (sk c) w false w1 ->
  returns (tok c) w1 (token, e1) w2 ->
  (is_nil e1 = false ->
   Process mw next c (mkTrace w log)
   = (Val e1,
      mkTrace w2 (log ++ [call_skipper c;
                          call_turnstileResponseExtractorFunc c]))) /\
  (is_nil e1 = true ->
   forall (ip : RemoteIPExtractorFunc) (remoteIP : string) (e2 : error) w3,
     remoteIPExtractorFunc mw = Some ip ->
     returns (ip c) w2 (remoteIP, e2) w3 ->
     (is_nil e2 = false ->
      Process mw next c (mkTrace w log)
      = (Val e2,
         mkTrace w3 (log ++ [call_skipper c;
                             call_turnstileResponseExtractorFunc c;
                             call_remoteIPExtractorFunc c]))) /\
     (is_nil e2 = true ->
      forall (key : IdempotencyKeyExtractorFunc) (idempotencyKey : string)
             (e3 : error) w4,
        idempotencyKeyExtractorFunc mw = Some key ->
        returns (key c) w3 (idempotencyKey, e3) w4 ->
        is_nil e3 = false ->
        Process mw next c (mkTrace w log)
        = (Val e3,
           mkTrace w4 (log ++ [call_skipper c;
                               call_turnstileResponseExtractorFunc c;
                               call_remoteIPExtractorFunc c;
                               call_idempotencyKeyExtractorFunc c])))).
Proof.
  intros Hsk Htok Hrun1 Hrun2. split.
  - intros N1. run_process. reflexivity.
  - intros N1 ip remoteIP e2 w3 Hip Hrun3. split.
    + intros N2. run_process. reflexivity.
    + intros N2 key idempotencyKey e3 w4 Hkey Hrun4 N3. run_process. reflexivity.
Qed.

(** After an extraction without failure and the verifier's answer, what is
    left of [Process] is the case analysis on the verifier's error. *)
Lemma Process_after_Verify mw (next : option (echo.HandlerFunc W)) c
    w w4 w5 log (req : VerificationRequest) (v : Verifier W)
    (x : option VerificationResponse) (err : error) :
  extracts mw c w req w4 ->
  turnstileVerifier mw = Some v ->
  returns (Verify v (echo.Request_Context c) (Some req)) w4 (x, err) w5 ->
  Process mw next c (mkTrace w log)
  = (if negb (is_nil err) then
       if errors_Is err ErrValidationFailed then
         in_world (on_heap (echo.NewHTTPError
                              (echo.HTTPError_Code echo.ErrBadRequest)
                              "CloudFlare Turnstile verification failed"))
       else ret err
     else invoke (call_next c) (option_map (fun f => f c) next))
      (mkTrace w5 (log ++ extraction_calls c
                       ++ [call_Verify (echo.Request_Context c) (Some req)])).
Proof.
  intros (sk & tok & ip & key & w1 & w2 & w3 &
          Hsk & Htok & Hip & Hkey & R1 & R2 & R3 & R4) Hv R5.
  destruct req as [token remoteIP idempotencyKey]. cbn [Response RemoteIP
    IdempotencyKey] in *.
  unfold returns in *. unfold Process, bind, invoke.
  rewrite Hsk, Htok, Hip, Hkey, Hv. cbn [option_map tworld calls].
  rewrite R1. cbn [tworld calls]. rewrite R2. cbn [tworld calls is_nil negb].
  rewrite R3. cbn [tworld calls is_nil negb].
  rewrite R4. cbn [tworld calls is_nil negb].
  rewrite R5. unfold extraction_calls.
  repeat rewrite <- app_assoc. reflexivity.
Qed.

(** C7: when the extraction succeeds and the verifier returns an error: if
    the error matches [ErrValidationFailed], the middleware returns a fresh
    [*echo.HTTPError] with status 400, the fixed message
    "CloudFlare Turnstile verification failed" and no internal error, so
    nothing of the verifier's error is in it; any other error is returned as
    it is.  In both cases the handler is not called. *)
Theorem verifier_error_handling mw (next : option (echo.HandlerFunc W)) c
    w w4 w5 log (req : VerificationRequest) (v : Verifier W)
    (x : option VerificationResponse) (err : error) :
  extracts mw c w req w4 ->
  turnstileVerifier mw = Some v ->
  returns (Verify v (echo.Request_Context c) (Some req)) w4 (x, err) w5 ->
  is_nil err = false ->
  (errors_Is err ErrValidationFailed = true ->
   Process mw next c (mkTrace w log)
   = (Val (HTTPError (Dynamic (wheap w5)) 400
                     "CloudFlare Turnstile verification failed" nil_error),
      mkTrace (mkWorld (S (wheap w5)) (wext w5))
              (log ++ extraction_calls c
                   ++ [call_Verify (echo.Request_Context c) (Some req)]))) /\
  (errors_Is err ErrValidationFailed = false ->
   Process mw next c (mkTrace w log)
   = (Val err,
      mkTrace w5
              (log ++ extraction_calls c
                   ++ [call_Verify (echo.Request_Context c) (Some req)]))).
Proof.
  intros He Hv R N.
  rewrite (Process_after_Verify mw next c w w4 w5 log req v x err He Hv R).
  rewrite N. cbn [negb].
  split; intros E; rewrite E; reflexivity.
Qed.

End Gate.

Section Construction.
Context {W : Type} (L : stdlib W).
Context (DefaultRequestIDConfig_Generator : M (world W) string).
Implicit Types (c : echo.Context) (w : world W) (log : list call).

(** C2: every field of the configuration that is nil gets its default in the
    middleware, whatever the other fields hold: [DefaultSkipper], a verifier
    client for the secret, the extractor of the default token header, Echo's
    remote-IP extractor and Echo's idempotency-key extractor.  With the zero
    [Config], and so with [NewMiddleware], all five fields are the
    defaults. *)
Theorem unset_fields_get_defaults (secret : string) (cfg : Config) :
  (Skipper cfg = None ->
   skipper (NewMiddlewareWithConfig_mw L DefaultRequestIDConfig_Generator
                                        secret cfg)
   = Some echo.DefaultSkipper) /\
  (TurnstileVerifier cfg = None ->
   turnstileVerifier (NewMiddlewareWithConfig_mw L DefaultRequestIDConfig_Generator
                                        secret cfg)
   = Some (NewVerifierClient L secret)) /\
  (TurnstileResponseExtractorFunc_ cfg = None ->
   turnstileResponseExtractorFunc (NewMiddlewareWithConfig_mw L DefaultRequestIDConfig_Generator
                                        secret cfg)
   = Some RequestHeaderTurnstileResponseExtractorFunc) /\
  (RemoteIPExtractorFunc_ cfg = None ->
   remoteIPExtractorFunc (NewMiddlewareWithConfig_mw L DefaultRequestIDConfig_Generator
                                        secret cfg)
   = Some EchoRemoteIPExtractor) /\
  (IdempotencyKeyExtractorFunc_ cfg = None ->
   idempotencyKeyExtractorFunc (NewMiddlewareWithConfig_mw L DefaultRequestIDConfig_Generator
                                        secret cfg)
   = Some (EchoIdempotencyKeyExtractor DefaultRequestIDConfig_Generator)) /\
  NewMiddlewareWithConfig_mw L DefaultRequestIDConfig_Generator secret
                             zero_Config
  = mkMiddleware
      (Some echo.DefaultSkipper)
      (Some (NewVerifierClient L secret))
      (Some RequestHeaderTurnstileResponseExtractorFunc)
      (Some EchoRemoteIPExtractor)
      (Some (EchoIdempotencyKeyExtractor DefaultRequestIDConfig_Generator)) /\
  NewMiddleware L DefaultRequestIDConfig_Generator secret
  = Process (mkMiddleware
               (Some echo.DefaultSkipper)
               (Some (NewVerifierClient L secret))
               (Some RequestHeaderTurnstileResponseExtractorFunc)
               (Some EchoRemoteIPExtractor)
               (Some (EchoIdempotencyKeyExtractor
                        DefaultRequestIDConfig_Generator))).
Proof.
  unfold NewMiddlewareWithConfig_mw.
  repeat split; try (intros ->; reflexivity).
Qed.

(** C10: when [Verify] decodes a response that reports success it returns
    the response with a nil error, whatever its error codes; and a
    middleware whose verifier is such a client, after an extraction without
    failure, calls the downstream handler on the request and returns what the
    handler returns. *)
Theorem success_reaches_handler (t : verifierClient) (ctx : context_Context)
    (r : VerificationRequest) w (httpResp : http_Response L)
    (resp : VerificationResponse) w' (x : error) w'' :
  decodes L t ctx r w httpResp resp w' ->
  Success resp = true ->
  returns (Body_Close L httpResp) w' x w'' ->
  returns (verifierClient_Verify L t ctx (Some r)) w (Some resp, nil_error) w''
  /\
  (forall (mw : @middleware W) (handler : echo.HandlerFunc W) c w0 log,
     turnstileVerifier mw = Some (verifierClient_Verifier L t) ->
     ctx = echo.Request_Context c ->
     extracts mw c w0 r w ->
     Process mw (Some handler) c (mkTrace w0 log)
     = (fst (handler c w''),
        mkTrace (snd (handler c w''))
                (log ++ extraction_calls c
                     ++ [call_Verify ctx (Some r); call_next c]))).
Proof.
  intros Hd Hs Hc.
  pose proof (turnstile_spec.Verify_success L t ctx r w httpResp resp w' x w''
                Hd Hs Hc) as HV.
  split; [exact HV |].
  intros mw handler c w0 log Hv -> He.
  rewrite (Process_after_Verify mw (Some handler) c w0 w w'' log r
             (verifierClient_Verifier L t) (Some resp) nil_error He Hv HV).
  cbn [is_nil negb]. unfold invoke. cbn [option_map tworld calls].
  destruct (handler c w'') as [res w6]. cbn [fst snd].
  repeat rewrite <- app_assoc. reflexivity.
Qed.

End Construction.

(** C1 (what the code does instead): a field of the configuration that is
    set leaves the corresponding field of the middleware nil, whatever the
    other fields hold; the override is not kept.  So the gate built from a
    configuration whose only entry is a skip predicate that skips every
    request panics on its first request before it has called anything,
    where the gate that holds that predicate calls the handler. *)
Theorem set_fields_are_dropped :
  (forall (W : Type) (L : stdlib W) (G : M (world W) string) (secret : string)
          f v t r i (f' : option (echo.Skipper W)) v' t' r' i',
     skipper (NewMiddlewareWithConfig_mw L G secret
                (mkConfig (Some f) v' t' r' i')) = None /\
     turnstileVerifier (NewMiddlewareWithConfig_mw L G secret
                          (mkConfig f' (Some v) t' r' i')) = None /\
     turnstileResponseExtractorFunc
       (NewMiddlewareWithConfig_mw L G secret
          (mkConfig f' v' (Some t) r' i')) = None /\
     remoteIPExtractorFunc
       (NewMiddlewareWithConfig_mw L G secret
          (mkConfig f' v' t' (Some r) i')) = None /\
     idempotencyKeyExtractorFunc
       (NewMiddlewareWithConfig_mw L G secret
          (mkConfig f' v' t' r' (Some i))) = None) /\
  NewMiddlewareWithConfig
    (doubles.canned_stdlib doubles.accepted) doubles.Generator
    "1x0000000000000000000000000000000AA"
    (mkConfig (Some doubles.skip_all) None None None None)
    (Some doubles.NoContent) doubles.request_with_token
    (mkTrace doubles.start [])
  = (Panicked nil_dereference, mkTrace doubles.start []) /\
  Process
    (mkMiddleware (Some doubles.skip_all) None None None None)
    (Some doubles.NoContent) doubles.request_with_token
    (mkTrace doubles.start [])
  = (Val nil_error,
     mkTrace doubles.start
             [call_skipper doubles.request_with_token;
              call_next doubles.request_with_token]).
Proof.
  split; [| split; reflexivity].
  intros. repeat split.
Qed.

Lemma skip_passes_through_witness :
  Process
    (mkMiddleware (Some doubles.skip_all) None None None None)
    (Some doubles.NoContent) doubles.request_without_token
    (mkTrace doubles.start [])
  = (Val nil_error,
     mkTrace doubles.start
             [call_skipper doubles.request_without_token;
              call_next doubles.request_without_token]).
Proof.
  exact (skip_passes_through
           (mkMiddleware (Some doubles.skip_all) None None None None)
           doubles.NoContent doubles.request_without_token doubles.skip_all
           doubles.start doubles.start [] eq_refl eq_refl).
Defined.

Lemma extractor_failure_short_circuits_witness :
  Process (doubles.gate_around (doubles.stub_verifier doubles.accepted))
          (Some doubles.NoContent) doubles.request_without_token
          (mkTrace doubles.start [])
  = (Val (HTTPError (Dynamic 0) 400
            "expected turnstile response in header cf-turnstile-response"
            nil_error),
     mkTrace (mkWorld 1 0)
             [call_skipper doubles.request_without_token;
              call_turnstileResponseExtractorFunc
                doubles.request_without_token]) /\
  Process (mkMiddleware
             (Some echo.DefaultSkipper)
             (Some (doubles.stub_verifier doubles.accepted))
             (Some RequestHeaderTurnstileResponseExtractorFunc)
             (Some CloudFlareRequestHeaderRemoteIPExtractor)
             (Some doubles.failing_extractor))
          (Some doubles.NoContent) doubles.request_with_token
          (mkTrace doubles.start [])
  = (Val (wrapError (Dynamic 0)
            "expected turnstile response in header CF-Connecting-IP: code=400, message=Bad Request"
            echo.ErrBadRequest),
     mkTrace (mkWorld 1 0)
             [call_skipper doubles.request_with_token;
              call_turnstileResponseExtractorFunc doubles.request_with_token;
              call_remoteIPExtractorFunc doubles.request_with_token]) /\
  Process (mkMiddleware
             (Some echo.DefaultSkipper)
             (Some (doubles.stub_verifier doubles.accepted))
             (Some RequestHeaderTurnstileResponseExtractorFunc)
             (Some EchoRemoteIPExtractor)
             (Some doubles.failing_extractor))
          (Some doubles.NoContent) doubles.request_with_token
          (mkTrace doubles.start [])
  = (Val doubles.ErrNoKey,
     mkTrace doubles.start
             [call_skipper doubles.request_with_token;
              call_turnstileResponseExtractorFunc doubles.request_with_token;
              call_remoteIPExtractorFunc doubles.request_with_token;
              call_idempotencyKeyExtractorFunc doubles.request_with_token]).
Proof.
  split; [| split].
  - refine (proj1 (extractor_failure_short_circuits
                     (doubles.gate_around
                        (doubles.stub_verifier doubles.accepted))
                     (Some doubles.NoContent) doubles.request_without_token
                     echo.DefaultSkipper
                     RequestHeaderTurnstileResponseExtractorFunc
                     doubles.start doubles.start (mkWorld 1 0) [] "" _
                     eq_refl eq_refl eq_refl eq_refl) eq_refl).
  - refine (proj1 (proj2 (extractor_failure_short_circuits
                            (mkMiddleware
                               (Some echo.DefaultSkipper)
                               (Some (doubles.stub_verifier doubles.accepted))
                               (Some RequestHeaderTurnstileResponseExtractorFunc)
                               (Some CloudFlareRequestHeaderRemoteIPExtractor)
                               (Some doubles.failing_extractor))
                            (Some doubles.NoContent)
                            doubles.request_with_token
                            echo.DefaultSkipper
                            RequestHeaderTurnstileResponseExtractorFunc
                            doubles.start doubles.start doubles.start []
                            "XXXX.DUMMY.TOKEN.XXXX" nil_error
                            eq_refl eq_refl eq_refl eq_refl)
                         eq_refl
                         CloudFlareRequestHeaderRemoteIPExtractor "" _
                         (mkWorld 1 0) eq_refl eq_refl) eq_refl).
  - refine (proj2 (proj2 (extractor_failure_short_circuits
                            (mkMiddleware
                               (Some echo.DefaultSkipper)
                               (Some (doubles.stub_verifier doubles.accepted))
                               (Some RequestHeaderTurnstileResponseExtractorFunc)
                               (Some EchoRemoteIPExtractor)
                               (Some doubles.failing_extractor))
                            (Some doubles.NoContent)
                            doubles.request_with_token
                            echo.DefaultSkipper
                            RequestHeaderTurnstileResponseExtractorFunc
                            doubles.start doubles.start doubles.start []
                            "XXXX.DUMMY.TOKEN.XXXX" nil_error
                            eq_refl eq_refl eq_refl eq_refl)
                         eq_refl
                         EchoRemoteIPExtractor "203.0.113.7" nil_error
                         doubles.start eq_refl eq_refl)
                  eq_refl doubles.failing_extractor "" doubles.ErrNoKey
                  doubles.start eq_refl eq_refl eq_refl).
Defined.

Lemma verifier_error_handling_witness :
  Process (doubles.gate_around
             (doubles.stub_verifier (doubles.rejected [timeoutOrDuplicate])))
          (Some doubles.NoContent) doubles.request_with_token
          (mkTrace doubles.start [])
  = (Val (HTTPError (Dynamic 1) 400
            "CloudFlare Turnstile verification failed" nil_error),
     mkTrace (mkWorld 2 0)
             (extraction_calls doubles.request_with_token
              ++ [call_Verify (context_handle 0)
                              (Some doubles.some_request)])) /\
  Process (doubles.gate_around
             (doubles.stub_verifier (doubles.rejected [invalidInputSecret])))
          (Some doubles.NoContent) doubles.request_with_token
          (mkTrace doubles.start [])
  = (Val (wrapError (Dynamic 0)
            "validation error(s) on turnstile: [invalid-input-secret] invalid request"
            ErrInvalidRequest),
     mkTrace (mkWorld 1 0)
             (extraction_calls doubles.request_with_token
              ++ [call_Verify (context_handle 0)
                              (Some doubles.some_request)])).
Proof.
  assert (He : forall v,
             extracts (doubles.gate_around v) doubles.request_with_token
                      doubles.start doubles.some_request doubles.start).
  { intros v.
    exists echo.DefaultSkipper, RequestHeaderTurnstileResponseExtractorFunc,
      EchoRemoteIPExtractor, (EchoIdempotencyKeyExtractor doubles.Generator),
      doubles.start, doubles.start, doubles.start.
    repeat split. }
  split.
  - refine (proj1 (verifier_error_handling
                     (doubles.gate_around _) (Some doubles.NoContent)
                     doubles.request_with_token doubles.start doubles.start
                     (mkWorld 1 0) [] doubles.some_request
                     (doubles.stub_verifier
                        (doubles.rejected [timeoutOrDuplicate]))
                     (Some (doubles.rejected [timeoutOrDuplicate]))
                     (fst (mapErrorCodes [timeoutOrDuplicate] 0))
                     (He _) eq_refl eq_refl eq_refl) eq_refl).
  - refine (proj2 (verifier_error_handling
                     (doubles.gate_around _) (Some doubles.NoContent)
                     doubles.request_with_token doubles.start doubles.start
                     (mkWorld 1 0) [] doubles.some_request
                     (doubles.stub_verifier
                        (doubles.rejected [invalidInputSecret]))
                     (Some (doubles.rejected [invalidInputSecret]))
                     (fst (mapErrorCodes [invalidInputSecret] 0))
                     (He _) eq_refl eq_refl eq_refl) eq_refl).
Defined.

Lemma unset_fields_get_defaults_witness :
  turnstileVerifier
    (NewMiddlewareWithConfig_mw
       (doubles.canned_stdlib doubles.accepted) doubles.Generator
       "1x0000000000000000000000000000000AA"
       (mkConfig (Some doubles.skip_all) None None None None))
  = Some (NewVerifierClient (doubles.canned_stdlib doubles.accepted)
                            "1x0000000000000000000000000000000AA") /\
  skipper
    (NewMiddlewareWithConfig_mw
       (doubles.canned_stdlib doubles.accepted) doubles.Generator
       "1x0000000000000000000000000000000AA" zero_Config)
  = Some echo.DefaultSkipper.
Proof.
  split.
  - exact (proj1 (proj2 (unset_fields_get_defaults
                           (doubles.canned_stdlib doubles.accepted)
                           doubles.Generator
                           "1x0000000000000000000000000000000AA"
                           (mkConfig (Some doubles.skip_all) None None None
                                     None)))
                 eq_refl).
  - exact (proj1 (unset_fields_get_defaults
                    (doubles.canned_stdlib doubles.accepted)
                    doubles.Generator
                    "1x0000000000000000000000000000000AA" zero_Config)
                 eq_refl).
Defined.

Lemma success_reaches_handler_witness :
  NewMiddleware (doubles.canned_stdlib doubles.accepted_with_codes)
                doubles.Generator "1x0000000000000000000000000000000AA"
                (Some doubles.NoContent) doubles.request_with_token
                (mkTrace doubles.start [])
  = (Val nil_error,
     mkTrace (mkWorld 0 1)
             (extraction_calls doubles.request_with_token
              ++ [call_Verify (context_handle 0) (Some doubles.some_request);
                  call_next doubles.request_with_token])).
Proof.
  refine (proj2 (success_reaches_handler
                   (doubles.canned_stdlib doubles.accepted_with_codes)
                   doubles.client (context_handle 0) doubles.some_request
                   doubles.start doubles.accepted_with_codes
                   doubles.accepted_with_codes (mkWorld 0 1) nil_error
                   (mkWorld 0 1) _ eq_refl eq_refl)
                (NewMiddlewareWithConfig_mw
                   (doubles.canned_stdlib doubles.accepted_with_codes)
                   doubles.Generator "1x0000000000000000000000000000000AA"
                   zero_Config)
                doubles.NoContent doubles.request_with_token doubles.start []
                eq_refl eq_refl _).
  - exists [], doubles.start, ([], []), doubles.start, (mkWorld 0 1).
    repeat split.
  - exists echo.DefaultSkipper, RequestHeaderTurnstileResponseExtractorFunc,
      EchoRemoteIPExtractor, (EchoIdempotencyKeyExtractor doubles.Generator),
      doubles.start, doubles.start, doubles.start.
    repeat split.
Defined.

End echoturnstile_spec.

(** * Further properties *)

(** ** [mapErrorCodes] *)

Module classification.
Import Go turnstile.

Lemma addr_eqb_refl (a : addr) : addr_eqb a a = true.
Proof. destruct a; simpl; apply Nat.eqb_refl. Qed.

Lemma error_eqb_refl (e : error) : error_eqb e e = true.
Proof.
  destruct e; simpl; rewrite ?addr_eqb_refl, ?String.eqb_refl; reflexivity.
Qed.

(** A non-nil error matches itself. *)
Lemma errors_Is_refl (e : error) : is_nil e = false -> errors_Is e e = true.
Proof.
  intros N. unfold errors_Is. rewrite N. cbn [orb].
  destruct e; try discriminate N; cbn [errors_is];
    rewrite error_eqb_refl; reflexivity.
Qed.

(** Against an [*errorString], a [*wrapError] matches as its operand does. *)
Lemma errors_Is_wrapError (p : addr) (msg : string) (e : error)
    (q : addr) (s : string) :
  errors_Is (wrapError p msg e) (errorString q s)
  = errors_Is e (errorString q s).
Proof. destruct e; reflexivity. Qed.

(** Against a target of another type than [*wrapError], a [*wrapError]
    matches as its operand does. *)
Lemma errors_Is_wrapError_other (p : addr) (msg : string) (e target : error) :
  is_nil target = false ->
  (forall q m x, target <> wrapError q m x) ->
  errors_Is (wrapError p msg e) target = errors_Is e target.
Proof.
  intros N H. unfold errors_Is. rewrite N. cbn [is_nil orb errors_is].
  assert (E : error_eqb (wrapError p msg e) target = false).
  { destruct target; try reflexivity. exfalso. eapply H. reflexivity. }
  rewrite E. cbn [orb].
  destruct e; cbn [is_nil errors_is]; try reflexivity.
  destruct target; try reflexivity; discriminate N.
Qed.

Lemma mapErrorCodes_heap (codes : list turnstileErrorCode) (h : heap) :
  snd (mapErrorCodes codes h) = S h.
Proof.
  unfold mapErrorCodes.
  repeat match goal with |- context [if ?b then _ else _] => destruct b end;
    reflexivity.
Qed.

Lemma slices_Contains_same_members (l1 l2 : list string) (v : string) :
  (forall c, In c l1 <-> In c l2) ->
  slices_Contains l1 v = slices_Contains l2 v.
Proof.
  intros H.
  destruct (slices_Contains l2 v) eqn:E.
  - apply turnstile_spec.slices_Contains_In, H,
      turnstile_spec.slices_Contains_In, E.
  - apply turnstile_spec.slices_Contains_not_In. intros Hin.
    apply turnstile_spec.slices_Contains_not_In in E. apply E, H, Hin.
Qed.

(** X1: the error [mapErrorCodes] returns matches [ErrValidationFailed]
    exactly when the codes hold no [internal-error] and hold
    [invalid-input-response] or [timeout-or-duplicate]. *)
Theorem mapErrorCodes_Is_ErrValidationFailed
    (codes : list turnstileErrorCode) (h : heap) :
  errors_Is (fst (mapErrorCodes codes h)) ErrValidationFailed
  = negb (slices_Contains codes internalError)
    && (slices_Contains codes invalidInputResponse
        || slices_Contains codes timeoutOrDuplicate).
Proof.
  unfold mapErrorCodes.
  repeat match goal with |- context [if ?b then _ else _] => destruct b eqn:? end;
    try reflexivity.
  all: repeat match goal with
         | H : _ || _ = false |- _ => apply orb_false_elim in H; destruct H
         end.
  all: repeat match goal with H : ?b = _ |- context [?b] => rewrite H end.
  all: reflexivity.
Qed.

(** X2: the error [mapErrorCodes] returns matches [ErrInvalidRequest]
    exactly when the codes hold none of [internal-error],
    [invalid-input-response], [timeout-or-duplicate] and hold one of the six
    codes of the third rule; and no code list makes it match both
    sentinels. *)
Theorem mapErrorCodes_Is_ErrInvalidRequest
    (codes : list turnstileErrorCode) (h : heap) :
  errors_Is (fst (mapErrorCodes codes h)) ErrInvalidRequest
  = negb (slices_Contains codes internalError)
    && negb (slices_Contains codes invalidInputResponse
             || slices_Contains codes timeoutOrDuplicate)
    && (slices_Contains codes badRequest
        || slices_Contains codes missingInputSecret
        || slices_Contains codes invalidInputSecret
        || slices_Contains codes invalidParsedSecret
        || slices_Contains codes invalidWidgetID
        || slices_Contains codes missingInputResponse) /\
  errors_Is (fst (mapErrorCodes codes h)) ErrValidationFailed
  && errors_Is (fst (mapErrorCodes codes h)) ErrInvalidRequest = false.
Proof.
  unfold mapErrorCodes.
  destruct (slices_Contains codes internalError);
    [split; reflexivity |].
  destruct (slices_Contains codes invalidInputResponse
            || slices_Contains codes timeoutOrDuplicate);
    [split; reflexivity |].
  cbn [negb andb].
  destruct (slices_Contains codes badRequest),
           (slices_Contains codes missingInputSecret),
           (slices_Contains codes invalidInputSecret),
           (slices_Contains codes invalidParsedSecret),
           (slices_Contains codes invalidWidgetID),
           (slices_Contains codes missingInputResponse);
    split; reflexivity.
Qed.

(** X3: two code lists with the same members are classified alike, whatever
    the order and the repetitions: the two errors match the same
    sentinels. *)
Theorem mapErrorCodes_same_members
    (l1 l2 : list turnstileErrorCode) (h1 h2 : heap) :
  (forall c, In c l1 <-> In c l2) ->
  errors_Is (fst (mapErrorCodes l1 h1)) ErrValidationFailed
  = errors_Is (fst (mapErrorCodes l2 h2)) ErrValidationFailed /\
  errors_Is (fst (mapErrorCodes l1 h1)) ErrInvalidRequest
  = errors_Is (fst (mapErrorCodes l2 h2)) ErrInvalidRequest /\
  (fst (mapErrorCodes l1 h1)
   = errorString (Dynamic h1) "turnstile server error" <->
   fst (mapErrorCodes l2 h2)
   = errorString (Dynamic h2) "turnstile server error").
Proof.
  intros H. unfold mapErrorCodes.
  rewrite !(slices_Contains_same_members l1 l2 _ H).
  repeat match goal with |- context [if ?b then _ else _] => destruct b end;
    cbn [fst errors_New fmt_Errorf fmt_Errorf_w];
    (split; [reflexivity | split; [reflexivity |]]);
    split; intros E; try reflexivity; discriminate E.
Qed.

Lemma mapErrorCodes_same_members_witness :
  errors_Is (fst (mapErrorCodes [badRequest; timeoutOrDuplicate; badRequest] 0))
            ErrValidationFailed
  = errors_Is (fst (mapErrorCodes [timeoutOrDuplicate; badRequest] 4))
              ErrValidationFailed.
Proof.
  refine (proj1 (mapErrorCodes_same_members
                   [badRequest; timeoutOrDuplicate; badRequest]
                   [timeoutOrDuplicate; badRequest] 0 4 _)).
  intros c. simpl. tauto.
Defined.

(** X4: every call of [mapErrorCodes] takes one cell of the heap and returns
    the error it put there, so the errors of two calls made one after the
    other are never [==], even for the same codes. *)
Theorem mapErrorCodes_fresh
    (codes1 codes2 : list turnstileErrorCode) (h : heap) :
  snd (mapErrorCodes codes1 h) = S h /\
  (exists s, fst (mapErrorCodes codes1 h) = errorString (Dynamic h) s \/
             exists e, fst (mapErrorCodes codes1 h) = wrapError (Dynamic h) s e)
  /\
  error_eqb (fst (mapErrorCodes codes1 h))
            (fst (mapErrorCodes codes2 (snd (mapErrorCodes codes1 h))))
  = false.
Proof.
  split; [apply mapErrorCodes_heap |]. split.
  - unfold mapErrorCodes.
    repeat match goal with |- context [if ?b then _ else _] => destruct b end;
      cbn [fst errors_New fmt_Errorf fmt_Errorf_w]; eexists;
      first [left; reflexivity | right; eexists; reflexivity].
  - rewrite mapErrorCodes_heap.
    assert (N : Nat.eqb h (S h) = false)
      by (apply Nat.eqb_neq; lia).
    unfold mapErrorCodes.
    repeat match goal with |- context [if ?b then _ else _] => destruct b end;
      cbn [fst errors_New fmt_Errorf fmt_Errorf_w error_eqb addr_eqb];
      first [exact N | reflexivity].
Qed.

End classification.

(** ** The failure paths of [Verify] *)

Module verify_paths.
Import Go turnstile.

Section Paths.
Context {W : Type} (L : stdlib W).
Implicit Types (t : verifierClient) (ctx : context_Context)
  (r : VerificationRequest) (w : world W).

(** X5: whenever [Verify] returns, a nil response comes with a non-nil
    error, and a response comes with a nil error exactly when it reports
    success: the response and the error are never both nil, and a response
    that does not report success never comes with a nil error. *)
Theorem Verify_result_invariant t ctx (req : option VerificationRequest)
    w (resp : option VerificationResponse) (err : error) w' :
  returns (verifierClient_Verify L t ctx req) w (resp, err) w' ->
  match resp with
  | None => is_nil err = false
  | Some r => is_nil err = Success r
  end.
Proof.
  unfold returns, verifierClient_Verify, bind, defer, on_heap, ret,
    fmt_Errorf_w, panic.
  intros H.
  repeat (match goal with
          | H' : context [match ?x with _ => _ end] |- _ => destruct x eqn:?
          end; try discriminate).
  all: repeat match goal with
         | E : (_, _) = (_, _) |- _ => inversion E; subst; clear E
         end.
  all: try reflexivity.
  all: try match goal with
         | E : negb (Success ?v) = _ |- _ =>
             destruct (Success v); try discriminate E
         end.
  all: try reflexivity.
  match goal with
  | E : mapErrorCodes ?c ?h = (?e, _) |- is_nil ?e = false =>
      pose proof (turnstile_spec.mapErrorCodes_not_nil c h) as N;
      rewrite E in N; exact N
  end.
Qed.

(** X6: when marshalling fails, or when the HTTP request cannot be built,
    [Verify] returns no response and a fresh error that wraps the cause and
    carries its text; the world is the one the failing call left, with one
    more cell taken, so nothing is sent. *)
Theorem Verify_failure_before_sending t ctx r w :
  (forall requestJSON err w1,
     returns (json_Marshal L (mkRequestWithSecret r (secret t))) w
             (requestJSON, err) w1 ->
     is_nil err = false ->
     returns (verifierClient_Verify L t ctx (Some r)) w
             (None,
              wrapError (Dynamic (wheap w1))
                ("can not marshall verification request to JSON: "
                 ++ Error err) err)
             (mkWorld (S (wheap w1)) (wext w1))) /\
  (forall requestJSON w1 httpReq err w2,
     returns (json_Marshal L (mkRequestWithSecret r (secret t))) w
             (requestJSON, nil_error) w1 ->
     returns (http_NewRequestWithContext L ctx "POST" (url t) requestJSON) w1
             (httpReq, err) w2 ->
     is_nil err = false ->
     returns (verifierClient_Verify L t ctx (Some r)) w
             (None,
              wrapError (Dynamic (wheap w2))
                ("can not create HTTP request: " ++ Error err) err)
             (mkWorld (S (wheap w2)) (wext w2))).
Proof.
  unfold returns. split.
  - intros requestJSON err w1 Hm N.
    unfold verifierClient_Verify, bind. rewrite Hm, N. reflexivity.
  - intros requestJSON w1 httpReq err w2 Hm Hn N.
    unfold verifierClient_Verify, bind. rewrite Hm. cbn [is_nil negb].
    rewrite Hn, N. reflexivity.
Qed.

(** X7: when sending fails, [Verify] returns no response and a fresh error
    that wraps the transport's error; the body is not decoded and not closed.
    The error matches its cause, and it matches one of the two sentinels only
    if the cause does. *)
Theorem Verify_transport_failure t ctx r w requestJSON w1
    (httpReq : http_Request L) w2 (httpResp : option (http_Response L))
    (err : error) w3 :
  returns (json_Marshal L (mkRequestWithSecret r (secret t))) w
          (requestJSON, nil_error) w1 ->
  returns (http_NewRequestWithContext L ctx "POST" (url t) requestJSON) w1
          (Some httpReq, nil_error) w2 ->
  returns (Client_Do L (Header_Set L httpReq "Content-Type"
                                   "application/json")) w2
          (httpResp, err) w3 ->
  is_nil err = false ->
  let e := wrapError (Dynamic (wheap w3))
                     ("error sending HTTP request: " ++ Error err) err in
  returns (verifierClient_Verify L t ctx (Some r)) w (None, e)
          (mkWorld (S (wheap w3)) (wext w3)) /\
  errors_Is e err = true /\
  errors_Is e ErrValidationFailed = errors_Is err ErrValidationFailed /\
  errors_Is e ErrInvalidRequest = errors_Is err ErrInvalidRequest.
Proof.
  intros Hm Hn Hd N e. unfold returns in *. split; [| split; [| split]].
  - unfold verifierClient_Verify, bind. rewrite Hm. cbn [is_nil negb].
    rewrite Hn. cbn [is_nil negb]. rewrite Hd, N. reflexivity.
  - subst e. unfold errors_Is. rewrite N. cbn [is_nil orb errors_is].
    pose proof (classification.errors_Is_refl err N) as R.
    unfold errors_Is in R. rewrite N in R. cbn [orb] in R.
    rewrite R. apply orb_true_r.
  - apply classification.errors_Is_wrapError.
  - apply classification.errors_Is_wrapError.
Qed.

(** X8: when the body cannot be decoded, [Verify] returns no response and a
    fresh error that wraps the decoder's error, after the deferred close of
    the body has run. *)
Theorem Verify_decode_failure t ctx r w requestJSON w1
    (httpReq : http_Request L) w2 (httpResp : http_Response L) w3
    (resp : VerificationResponse) (err : error) w4 (x : error) w5 :
  returns (json_Marshal L (mkRequestWithSecret r (secret t))) w
          (requestJSON, nil_error) w1 ->
  returns (http_NewRequestWithContext L ctx "POST" (url t) requestJSON) w1
          (Some httpReq, nil_error) w2 ->
  returns (Client_Do L (Header_Set L httpReq "Content-Type"
                                   "application/json")) w2
          (Some httpResp, nil_error) w3 ->
  returns (Decoder_Decode L httpResp zero_VerificationResponse) w3
          (resp, err) w4 ->
  is_nil err = false ->
  returns (Body_Close L httpResp) (mkWorld (S (wheap w4)) (wext w4)) x w5 ->
  returns (verifierClient_Verify L t ctx (Some r)) w
          (None,
           wrapError (Dynamic (wheap w4))
             ("can not decode turnstile response into JSON: " ++ Error err)
             err)
          w5.
Proof.
  unfold returns. intros Hm Hn Hd Hj N Hc.
  unfold verifierClient_Verify, bind. rewrite Hm. cbn [is_nil negb].
  rewrite Hn. cbn [is_nil negb]. rewrite Hd. cbn [is_nil negb].
  unfold defer. rewrite Hj, N. cbn [negb].
  unfold on_heap, fmt_Errorf_w, ret. rewrite Hc. reflexivity.
Qed.

End Paths.

Lemma Verify_result_invariant_witness :
  is_nil (errorString (Dynamic 0) "unhandled turnstile error: [unknown-code]")
  = Success (doubles.rejected ["unknown-code"]).
Proof.
  exact (Verify_result_invariant
           (doubles.canned_stdlib (doubles.rejected ["unknown-code"]))
           doubles.client (context_handle 0) (Some doubles.some_request)
           doubles.start
           (Some (doubles.rejected ["unknown-code"]))
           (errorString (Dynamic 0) "unhandled turnstile error: [unknown-code]")
           (mkWorld 1 1) eq_refl).
Defined.

Lemma Verify_failure_before_sending_witness :
  returns (verifierClient_Verify
             (faults.faulty_stdlib faults.ErrUnsupported nil_error nil_error
                                   nil_error doubles.accepted)
             doubles.client (context_handle 0) (Some doubles.some_request))
          faults.start
          (None,
           wrapError (Dynamic 0)
             "can not marshall verification request to JSON: json: unsupported type"
             faults.ErrUnsupported)
          (mkWorld 1 (0, 0)) /\
  returns (verifierClient_Verify
             (faults.faulty_stdlib nil_error faults.ErrMissingScheme nil_error
                                   nil_error doubles.accepted)
             doubles.client (context_handle 0) (Some doubles.some_request))
          faults.start
          (None,
           wrapError (Dynamic 0)
             "can not create HTTP request: parse: missing protocol scheme"
             faults.ErrMissingScheme)
          (mkWorld 1 (0, 0)).
Proof.
  split.
  - exact (proj1 (Verify_failure_before_sending
                    (faults.faulty_stdlib faults.ErrUnsupported nil_error
                                          nil_error nil_error doubles.accepted)
                    doubles.client (context_handle 0) doubles.some_request
                    faults.start)
                 [] faults.ErrUnsupported faults.start eq_refl eq_refl).
  - exact (proj2 (Verify_failure_before_sending
                    (faults.faulty_stdlib nil_error faults.ErrMissingScheme
                                          nil_error nil_error doubles.accepted)
                    doubles.client (context_handle 0) doubles.some_request
                    faults.start)
                 [] faults.start None faults.ErrMissingScheme faults.start
                 eq_refl eq_refl eq_refl).
Defined.

Lemma Verify_transport_failure_witness :
  returns (verifierClient_Verify
             (faults.faulty_stdlib nil_error nil_error faults.ErrRefused
                                   nil_error doubles.accepted)
             doubles.client (context_handle 0) (Some doubles.some_request))
          faults.start
          (None,
           wrapError (Dynamic 0)
             "error sending HTTP request: dial tcp: connection refused"
             faults.ErrRefused)
          (mkWorld 1 (1, 0)).
Proof.
  exact (proj1 (Verify_transport_failure
                  (faults.faulty_stdlib nil_error nil_error faults.ErrRefused
                                        nil_error doubles.accepted)
                  doubles.client (context_handle 0) doubles.some_request
                  faults.start [] faults.start ([], []) faults.start None
                  faults.ErrRefused (mkWorld 0 (1, 0))
                  eq_refl eq_refl eq_refl eq_refl)).
Defined.

Lemma Verify_decode_failure_witness :
  returns (verifierClient_Verify
             (faults.faulty_stdlib nil_error nil_error nil_error
                                   faults.ErrSyntax doubles.accepted)
             doubles.client (context_handle 0) (Some doubles.some_request))
          faults.start
          (None,
           wrapError (Dynamic 0)
             "can not decode turnstile response into JSON: invalid character looking for beginning of value"
             faults.ErrSyntax)
          (mkWorld 1 (1, 1)).
Proof.
  exact (Verify_decode_failure
           (faults.faulty_stdlib nil_error nil_error nil_error
                                 faults.ErrSyntax doubles.accepted)
           doubles.client (context_handle 0) doubles.some_request
           faults.start [] faults.start ([], []) faults.start
           doubles.accepted (mkWorld 0 (1, 0)) doubles.accepted
           faults.ErrSyntax (mkWorld 0 (1, 0)) nil_error (mkWorld 1 (1, 1))
           eq_refl eq_refl eq_refl eq_refl eq_refl eq_refl).
Defined.

End verify_paths.

(** ** The extractors and [Process] *)

Module gate_paths.
Import Go turnstile echoturnstile.

Section Extractors.
Context {W : Type}.
Implicit Types (c : echo.Context) (w : world W).

(** X9: the header extractor of the token returns the header's value with a
    nil error and leaves the world alone when the header is not empty; when
    it is empty it returns the empty string and a fresh [*echo.HTTPError]
    with status 400 whose message names the header.  That error is not
    [echo.ErrBadRequest] itself: [errors.Is] does not match the two. *)
Theorem token_header_extractor (headerName : string) c w :
  (echo.Request_Header_Get c headerName <> "" ->
   returns (RequestHeaderTurnstileResponseExtractorFuncWithHeaderName
              (W := W) headerName c) w
           (echo.Request_Header_Get c headerName, nil_error) w) /\
  (echo.Request_Header_Get c headerName = "" ->
   returns (RequestHeaderTurnstileResponseExtractorFuncWithHeaderName
              (W := W) headerName c) w
           ("",
            HTTPError (Dynamic (wheap w)) 400
              ("expected turnstile response in header " ++ headerName)
              nil_error)
           (mkWorld (S (wheap w)) (wext w)) /\
   errors_Is (HTTPError (Dynamic (wheap w)) 400
                ("expected turnstile response in header " ++ headerName)
                nil_error)
             echo.ErrBadRequest = false).
Proof.
  unfold returns, RequestHeaderTurnstileResponseExtractorFuncWithHeaderName,
    requestHeaderTurnstileResponseExtractor_Extract.
  split.
  - intros Hne.
    destruct (String.eqb_spec (echo.Request_Header_Get c headerName) "")
      as [E|_]; [contradiction | reflexivity].
  - intros ->. split; reflexivity.
Qed.

(** X10: the CloudFlare remote-IP extractor returns the value of
    [CF-Connecting-IP] with a nil error when the header is not empty; when it
    is empty it returns a fresh error that wraps [echo.ErrBadRequest], so
    [errors.Is] matches it with [echo.ErrBadRequest], and whose text speaks
    of the turnstile response and ends with the text of that error. *)
Theorem CloudFlare_remote_IP_extractor c w :
  (echo.Request_Header_Get c defaultCloudFlareRemoteIPHeader <> "" ->
   returns (CloudFlareRequestHeaderRemoteIPExtractor (W := W) c) w
           (echo.Request_Header_Get c defaultCloudFlareRemoteIPHeader,
            nil_error) w) /\
  (echo.Request_Header_Get c defaultCloudFlareRemoteIPHeader = "" ->
   returns (CloudFlareRequestHeaderRemoteIPExtractor (W := W) c) w
           ("",
            wrapError (Dynamic (wheap w))
              "expected turnstile response in header CF-Connecting-IP: code=400, message=Bad Request"
              echo.ErrBadRequest)
           (mkWorld (S (wheap w)) (wext w)) /\
   errors_Is (wrapError (Dynamic (wheap w))
                "expected turnstile response in header CF-Connecting-IP: code=400, message=Bad Request"
                echo.ErrBadRequest)
             echo.ErrBadRequest = true).
Proof.
  unfold returns, CloudFlareRequestHeaderRemoteIPExtractor,
    requestHeaderRemoteIPExtractor_Extract.
  split.
  - intros Hne.
    destruct (String.eqb_spec
                (echo.Request_Header_Get c defaultCloudFlareRemoteIPHeader) "")
      as [E|_]; [contradiction | reflexivity].
  - intros ->. split; reflexivity.
Qed.

End Extractors.

Lemma token_header_extractor_witness :
  returns (RequestHeaderTurnstileResponseExtractorFuncWithHeaderName
             (W := doubles.W) "cf-turnstile-response"
             doubles.request_with_token)
          doubles.start ("XXXX.DUMMY.TOKEN.XXXX", nil_error) doubles.start /\
  returns (RequestHeaderTurnstileResponseExtractorFuncWithHeaderName
             (W := doubles.W) "x-captcha" doubles.request_with_token)
          doubles.start
          ("",
           HTTPError (Dynamic 0) 400
             "expected turnstile response in header x-captcha" nil_error)
          (mkWorld 1 0).
Proof.
  split.
  - refine (proj1 (token_header_extractor "cf-turnstile-response"
                     doubles.request_with_token doubles.start) _).
    discriminate.
  - exact (proj1 (proj2 (token_header_extractor "x-captcha"
                           doubles.request_with_token doubles.start)
                        eq_refl)).
Defined.

Lemma CloudFlare_remote_IP_extractor_witness :
  errors_Is (wrapError (Dynamic 0)
               "expected turnstile response in header CF-Connecting-IP: code=400, message=Bad Request"
               echo.ErrBadRequest)
            echo.ErrBadRequest = true /\
  returns (CloudFlareRequestHeaderRemoteIPExtractor (W := doubles.W)
             (echo.mkContext (fun _ => "198.51.100.4") "203.0.113.7"
                             (context_handle 0)))
          doubles.start ("198.51.100.4", nil_error) doubles.start.
Proof.
  split.
  - exact (proj2 (proj2 (CloudFlare_remote_IP_extractor
                           doubles.request_with_token doubles.start)
                        eq_refl)).
  - refine (proj1 (CloudFlare_remote_IP_extractor
                     (echo.mkContext (fun _ => "198.51.100.4") "203.0.113.7"
                                     (context_handle 0))
                     doubles.start) _).
    discriminate.
Defined.

Section Defaults.
Context {W : Type} (L : stdlib W).
Context (DefaultRequestIDConfig_Generator : M (world W) string).
Implicit Types (c : echo.Context) (w : world W).

(** X11: the middleware built from the zero [Config] extracts, from a request
    whose [cf-turnstile-response] header is not empty, the verification
    request made of that header, of [c.RealIP()] and of the [X-Request-Id]
    header; when that header is not empty the generator is not run and the
    world is left alone, and when it is empty the idempotency key is what
    the generator returns. *)
Theorem default_gate_extracts (secret : string) c w :
  echo.Request_Header_Get c defaultCloudFlareTurnstileHeaderKey <> "" ->
  (echo.Request_Header_Get c echo.HeaderXRequestID <> "" ->
   extracts (NewMiddlewareWithConfig_mw L DefaultRequestIDConfig_Generator
                                        secret zero_Config)
            c w
            (mkVerificationRequest
               (echo.Request_Header_Get c defaultCloudFlareTurnstileHeaderKey)
               (echo.RealIP c)
               (echo.Request_Header_Get c echo.HeaderXRequestID))
            w) /\
  (echo.Request_Header_Get c echo.HeaderXRequestID = "" ->
   forall (requestId : string) w',
     returns DefaultRequestIDConfig_Generator w requestId w' ->
     extracts (NewMiddlewareWithConfig_mw L DefaultRequestIDConfig_Generator
                                          secret zero_Config)
              c w
              (mkVerificationRequest
                 (echo.Request_Header_Get c defaultCloudFlareTurnstileHeaderKey)
                 (echo.RealIP c)
                 requestId)
              w').
Proof.
  intros Htok.
  assert (T : returns (RequestHeaderTurnstileResponseExtractorFunc (W := W) c)
                w (echo.Request_Header_Get c
                     defaultCloudFlareTurnstileHeaderKey, nil_error) w).
  { unfold returns, RequestHeaderTurnstileResponseExtractorFunc,
      RequestHeaderTurnstileResponseExtractorFuncWithHeaderName,
      requestHeaderTurnstileResponseExtractor_Extract.
    destruct (String.eqb_spec
                (echo.Request_Header_Get c defaultCloudFlareTurnstileHeaderKey)
                "") as [E|_]; [contradiction | reflexivity]. }
  split.
  - intros Hid.
    exists echo.DefaultSkipper, RequestHeaderTurnstileResponseExtractorFunc,
      EchoRemoteIPExtractor,
      (EchoIdempotencyKeyExtractor DefaultRequestIDConfig_Generator), w, w, w.
    repeat split; try exact T.
    unfold returns, EchoIdempotencyKeyExtractor. cbn [IdempotencyKey].
    destruct (String.eqb_spec (echo.Request_Header_Get c echo.HeaderXRequestID)
                "") as [E|_]; [contradiction | reflexivity].
  - intros Hid requestId w' Hg.
    exists echo.DefaultSkipper, RequestHeaderTurnstileResponseExtractorFunc,
      EchoRemoteIPExtractor,
      (EchoIdempotencyKeyExtractor DefaultRequestIDConfig_Generator), w, w, w.
    repeat split; try exact T.
    unfold returns in *. unfold EchoIdempotencyKeyExtractor, bind.
    cbn [IdempotencyKey]. rewrite Hid. cbn [String.eqb].
    rewrite Hg. reflexivity.
Qed.

End Defaults.

Lemma default_gate_extracts_witness :
  extracts (NewMiddlewareWithConfig_mw
              (doubles.canned_stdlib doubles.accepted) doubles.Generator
              "1x0000000000000000000000000000000AA" zero_Config)
           doubles.request_with_token doubles.start
           doubles.some_request doubles.start /\
  extracts (NewMiddlewareWithConfig_mw
              (faults.faulty_stdlib nil_error nil_error nil_error nil_error
                                    doubles.accepted)
              faults.Generator
              "1x0000000000000000000000000000000AA" zero_Config)
           faults.request_with_id faults.start
           (mkVerificationRequest "XXXX.DUMMY.TOKEN.XXXX" "203.0.113.7"
                                  "req-7f3a")
           faults.start.
Proof.
  split.
  - refine (proj2 (default_gate_extracts
                     (doubles.canned_stdlib doubles.accepted) doubles.Generator
                     "1x0000000000000000000000000000000AA"
                     doubles.request_with_token doubles.start _)
                  eq_refl "fGq1nB7xsP0aZk3TtY9uLw2RrE5cHd8M" doubles.start
                  eq_refl).
    discriminate.
  - refine (proj1 (default_gate_extracts
                     (faults.faulty_stdlib nil_error nil_error nil_error
                                           nil_error doubles.accepted)
                     faults.Generator
                     "1x0000000000000000000000000000000AA"
                     faults.request_with_id faults.start _) _);
      discriminate.
Defined.

Section Order.
Context {W : Type}.
Implicit Types (mw : @middleware W) (c : echo.Context) (w : world W)
  (log : list call).

(** X12: whatever the skip predicate, the extractors, the verifier and the
    handler do, the calls one run of [Process] makes are the skip predicate
    followed by the handler, or a beginning of the sequence: skip predicate,
    token extractor, remote-IP extractor, idempotency-key extractor,
    [Verify], handler.  So no run calls the verifier or the handler twice,
    calls the verifier before the three extractors have run, or calls an
    extractor after the verifier. *)
Theorem Process_call_order mw (next : option (echo.HandlerFunc W)) c
    (s : trace) :
  exists l,
    calls (snd (Process mw next c s)) = (calls s ++ l)%list /\
    (l = [call_skipper c; call_next c] \/
     exists (req : VerificationRequest) (k : nat),
       l = firstn k (extraction_calls c
                     ++ [call_Verify (echo.Request_Context c) (Some req);
                         call_next c])%list).
Proof.
  destruct s as [w log].
  unfold Process, bind, invoke, in_world, on_heap, ret, echo.NewHTTPError.
  cases.
  all: cbn [snd calls tworld option_map] in *.
  all: repeat match goal with
         | E : (_, _) = (_, _) |- _ => inversion E; subst; clear E
         | E : Some _ = Some _ |- _ => inversion E; subst; clear E
         end.
  all: cbn [snd calls tworld].
  all: repeat rewrite <- app_assoc; cbn [app].
  all: eexists; split;
    [ first [ reflexivity | symmetry; apply app_nil_r ] | ].
  all: first
    [ left; reflexivity
    | right; exists (mkVerificationRequest "" "" ""), 0; reflexivity
    | right; exists (mkVerificationRequest "" "" ""), 1; reflexivity
    | right; exists (mkVerificationRequest "" "" ""), 2; reflexivity
    | right; exists (mkVerificationRequest "" "" ""), 3; reflexivity
    | right; exists (mkVerificationRequest "" "" ""), 4; reflexivity
    | right; eexists; exists 5; reflexivity
    | right; eexists; exists 6; reflexivity ].
Qed.

(** X13: the handler is called only on a request that was skipped or
    verified: if a run of [Process] calls the handler, then either the skip
    predicate answered yes, or it answered no, the three extractors returned
    without error, and [Verify], called on the request made of the three
    values, returned a nil error. *)
Theorem handler_only_after_verification mw
    (next : option (echo.HandlerFunc W)) c w :
  In (call_next c) (calls (snd (Process mw next c (mkTrace w [])))) ->
  (exists (sk : echo.Skipper W) w1,
     skipper mw = Some sk /\ returns (sk c) w true w1) \/
  (exists (v : Verifier W) (req : VerificationRequest) w4
          (x : option VerificationResponse) w5,
     turnstileVerifier mw = Some v /\
     extracts mw c w req w4 /\
     returns (Verify v (echo.Request_Context c) (Some req)) w4
             (x, nil_error) w5).
Proof.
  unfold Process, bind, invoke, in_world, on_heap, ret, echo.NewHTTPError,
    option_map.
  cases.
  all: cbn [snd calls tworld option_map app] in *.
  all: repeat match goal with
         | E : (_, _) = (_, _) |- _ => inversion E; subst; clear E
         | E : Some _ = Some _ |- _ => inversion E; subst; clear E
         | E : None = Some _ |- _ => discriminate E
         end.
  all: cbn [snd calls tworld app].
  all: intros H; cbn [In] in H.
  all: try (exfalso;
            repeat match goal with
              | H : _ \/ _ |- _ => destruct H as [H|H]
              | H : False |- _ => exact H
              | H : _ = call_next _ |- _ => discriminate H
              end; fail).
  all: clear H.
  all: repeat match goal with
         | E : negb (is_nil ?e) = false |- _ =>
             destruct e; try discriminate E; clear E
         end.
  all: unfold extracts, returns.
  all: try (left; do 2 eexists; split;
            [first [eassumption | reflexivity] | eassumption]).
  all: right;
    eexists; eexists (mkVerificationRequest _ _ _); do 3 eexists;
    cbn [Response RemoteIP IdempotencyKey];
    split; [first [eassumption | reflexivity] |];
    split; [| eassumption];
    do 7 eexists;
    repeat (split; [first [eassumption | reflexivity] |]); eassumption.
Qed.

(** X14: after an extraction without failure, when the verifier, whatever
    it is, returns a nil error, [Process] calls the handler once, in the
    world the verifier left, and returns what the handler returns, whether
    or not the verifier returned a response. *)
Theorem verified_request_reaches_handler mw (handler : echo.HandlerFunc W) c
    w w4 w5 log (req : VerificationRequest) (v : Verifier W)
    (x : option VerificationResponse) :
  extracts mw c w req w4 ->
  turnstileVerifier mw = Some v ->
  returns (Verify v (echo.Request_Context c) (Some req)) w4 (x, nil_error) w5 ->
  Process mw (Some handler) c (mkTrace w log)
  = (fst (handler c w5),
     mkTrace (snd (handler c w5))
             (log ++ extraction_calls c
                  ++ [call_Verify (echo.Request_Context c) (Some req);
                      call_next c])).
Proof.
  intros He Hv R.
  rewrite (echoturnstile_spec.Process_after_Verify
             mw (Some handler) c w w4 w5 log req v x nil_error He Hv R).
  cbn [is_nil negb]. unfold invoke. cbn [option_map tworld calls].
  destruct (handler c w5) as [res w6]. cbn [fst snd].
  repeat rewrite <- app_assoc. reflexivity.
Qed.

End Order.

Lemma handler_only_after_verification_witness :
  exists (v : Verifier doubles.W) (req : VerificationRequest) w4 x w5,
    turnstileVerifier
      (doubles.gate_around (doubles.stub_verifier doubles.accepted)) = Some v /\
    extracts (doubles.gate_around (doubles.stub_verifier doubles.accepted))
             doubles.request_with_token doubles.start req w4 /\
    returns (Verify v (context_handle 0) (Some req)) w4 (x, nil_error) w5.
Proof.
  destruct (handler_only_after_verification
              (doubles.gate_around (doubles.stub_verifier doubles.accepted))
              (Some doubles.NoContent) doubles.request_with_token
              doubles.start) as [(sk & w1 & Hsk & Hrun) | H].
  - simpl. tauto.
  - inversion Hsk; subst sk. discriminate Hrun.
  - exact H.
Defined.

Lemma verified_request_reaches_handler_witness :
  Process (doubles.gate_around (doubles.stub_verifier doubles.accepted))
          (Some doubles.NoContent) doubles.request_with_token
          (mkTrace doubles.start [])
  = (Val nil_error,
     mkTrace doubles.start
             (extraction_calls doubles.request_with_token
              ++ [call_Verify (context_handle 0) (Some doubles.some_request);
                  call_next doubles.request_with_token])).
Proof.
  refine (verified_request_reaches_handler
            (doubles.gate_around (doubles.stub_verifier doubles.accepted))
            doubles.NoContent doubles.request_with_token
            doubles.start doubles.start doubles.start []
            doubles.some_request (doubles.stub_verifier doubles.accepted)
            (Some doubles.accepted) _ eq_refl eq_refl).
  exists echo.DefaultSkipper, RequestHeaderTurnstileResponseExtractorFunc,
    EchoRemoteIPExtractor, (EchoIdempotencyKeyExtractor doubles.Generator),
    doubles.start, doubles.start, doubles.start.
  repeat split.
Defined.

Section EndToEnd.
Context {W : Type} (L : stdlib W).
Implicit Types (mw : @middleware W) (c : echo.Context) (w : world W)
  (log : list call) (t : verifierClient).

(** X15: a middleware around the verifier client, on a request whose
    extraction succeeds and whose verification is answered by a decoded
    response that does not report success: when the codes hold no
    [internal-error] and hold [invalid-input-response] or
    [timeout-or-duplicate], [Process] returns a fresh 400
    "CloudFlare Turnstile verification failed"; for every other code list it
    returns the error of [mapErrorCodes] itself.  In both cases the handler
    is not called. *)
Theorem unsuccessful_response_through_gate mw
    (next : option (echo.HandlerFunc W)) c t (r : VerificationRequest)
    w0 w (httpResp : http_Response L) (resp : VerificationResponse) w'
    (x : error) w'' log :
  turnstileVerifier mw = Some (verifierClient_Verifier L t) ->
  extracts mw c w0 r w ->
  decodes L t (echo.Request_Context c) r w httpResp resp w' ->
  Success resp = false ->
  returns (Body_Close L httpResp) (mkWorld (S (wheap w')) (wext w')) x w'' ->
  Process mw next c (mkTrace w0 log)
  = if negb (slices_Contains (ErrorCodes resp) internalError)
       && (slices_Contains (ErrorCodes resp) invalidInputResponse
           || slices_Contains (ErrorCodes resp) timeoutOrDuplicate)
    then
      (Val (HTTPError (Dynamic (wheap w'')) 400
                      "CloudFlare Turnstile verification failed" nil_error),
       mkTrace (mkWorld (S (wheap w'')) (wext w''))
               (log ++ extraction_calls c
                    ++ [call_Verify (echo.Request_Context c) (Some r)]))
    else
      (Val (fst (mapErrorCodes (ErrorCodes resp) (wheap w'))),
       mkTrace w''
               (log ++ extraction_calls c
                    ++ [call_Verify (echo.Request_Context c) (Some r)])).
Proof.
  intros Hv He Hd Hs Hc.
  assert (HV : returns (Verify (verifierClient_Verifier L t)
                               (echo.Request_Context c) (Some r)) w
                 (Some resp, fst (mapErrorCodes (ErrorCodes resp) (wheap w')))
                 w'').
  { apply (turnstile_spec.Verify_not_success L t (echo.Request_Context c) r w
             httpResp resp w' x w'' Hd Hs).
    rewrite classification.mapErrorCodes_heap. exact Hc. }
  rewrite (echoturnstile_spec.Process_after_Verify
             mw next c w0 w w'' log r (verifierClient_Verifier L t)
             (Some resp) _ He Hv HV).
  rewrite turnstile_spec.mapErrorCodes_not_nil. cbn [negb].
  unfold mapErrorCodes.
  destruct (slices_Contains (ErrorCodes resp) internalError);
    [reflexivity |].
  destruct (slices_Contains (ErrorCodes resp) invalidInputResponse
            || slices_Contains (ErrorCodes resp) timeoutOrDuplicate);
    [reflexivity |].
  cbn [negb andb].
  destruct (slices_Contains (ErrorCodes resp) badRequest
            || slices_Contains (ErrorCodes resp) missingInputSecret
            || slices_Contains (ErrorCodes resp) invalidInputSecret
            || slices_Contains (ErrorCodes resp) invalidParsedSecret
            || slices_Contains (ErrorCodes resp) missingInputSecret
            || slices_Contains (ErrorCodes resp) invalidWidgetID
            || slices_Contains (ErrorCodes resp) missingInputResponse);
    reflexivity.
Qed.

(** X16: a middleware around the verifier client, on a request whose
    extraction succeeds and whose HTTP call fails with an error that does not
    match [ErrValidationFailed]: [Process] returns the error [Verify] made,
    which wraps the transport's error, and the handler is not called. *)
Theorem transport_failure_through_gate mw
    (next : option (echo.HandlerFunc W)) c t (r : VerificationRequest)
    w0 w requestJSON w1 (httpReq : http_Request L) w2
    (httpResp : option (http_Response L)) (err : error) w3 log :
  turnstileVerifier mw = Some (verifierClient_Verifier L t) ->
  extracts mw c w0 r w ->
  returns (json_Marshal L (mkRequestWithSecret r (secret t))) w
          (requestJSON, nil_error) w1 ->
  returns (http_NewRequestWithContext L (echo.Request_Context c) "POST"
                                      (url t) requestJSON) w1
          (Some httpReq, nil_error) w2 ->
  returns (Client_Do L (Header_Set L httpReq "Content-Type"
                                   "application/json")) w2
          (httpResp, err) w3 ->
  is_nil err = false ->
  errors_Is err ErrValidationFailed = false ->
  Process mw next c (mkTrace w0 log)
  = (Val (wrapError (Dynamic (wheap w3))
                    ("error sending HTTP request: " ++ Error err) err),
     mkTrace (mkWorld (S (wheap w3)) (wext w3))
             (log ++ extraction_calls c
                  ++ [call_Verify (echo.Request_Context c) (Some r)])).
Proof.
  intros Hv He Hm Hn Hd N Hno.
  assert (HV : returns (Verify (verifierClient_Verifier L t)
                               (echo.Request_Context c) (Some r)) w
                 (None,
                  wrapError (Dynamic (wheap w3))
                            ("error sending HTTP request: " ++ Error err) err)
                 (mkWorld (S (wheap w3)) (wext w3))).
  { unfold returns in *. cbn [Verify verifierClient_Verifier].
    unfold verifierClient_Verify, bind. rewrite Hm. cbn [is_nil negb].
    rewrite Hn. cbn [is_nil negb]. rewrite Hd, N. reflexivity. }
  rewrite (echoturnstile_spec.Process_after_Verify
             mw next c w0 w _ log r (verifierClient_Verifier L t)
             None _ He Hv HV).
  cbn [is_nil negb].
  unfold ErrValidationFailed at 1.
  rewrite classification.errors_Is_wrapError.
  fold ErrValidationFailed. rewrite Hno. reflexivity.
Qed.

End EndToEnd.

Lemma unsuccessful_response_through_gate_witness :
  NewMiddleware
    (doubles.canned_stdlib
       (doubles.rejected [missingInputResponse; timeoutOrDuplicate]))
    doubles.Generator "1x0000000000000000000000000000000AA"
    (Some doubles.NoContent) doubles.request_with_token
    (mkTrace doubles.start [])
  = (Val (HTTPError (Dynamic 1) 400
            "CloudFlare Turnstile verification failed" nil_error),
     mkTrace (mkWorld 2 1)
             (extraction_calls doubles.request_with_token
              ++ [call_Verify (context_handle 0)
                              (Some doubles.some_request)])).
Proof.
  refine (unsuccessful_response_through_gate
            (doubles.canned_stdlib
               (doubles.rejected [missingInputResponse; timeoutOrDuplicate]))
            (NewMiddlewareWithConfig_mw
               (doubles.canned_stdlib
                  (doubles.rejected [missingInputResponse; timeoutOrDuplicate]))
               doubles.Generator "1x0000000000000000000000000000000AA"
               zero_Config)
            (Some doubles.NoContent) doubles.request_with_token
            doubles.client doubles.some_request
            doubles.start doubles.start
            (doubles.rejected [missingInputResponse; timeoutOrDuplicate])
            (doubles.rejected [missingInputResponse; timeoutOrDuplicate])
            (mkWorld 0 1) nil_error (mkWorld 1 1) []
            eq_refl _ _ eq_refl eq_refl).
  - exists echo.DefaultSkipper, RequestHeaderTurnstileResponseExtractorFunc,
      EchoRemoteIPExtractor, (EchoIdempotencyKeyExtractor doubles.Generator),
      doubles.start, doubles.start, doubles.start.
    repeat split.
  - exists [], doubles.start, ([], []), doubles.start, (mkWorld 0 1).
    repeat split.
Defined.

Lemma transport_failure_through_gate_witness :
  NewMiddleware
    (faults.faulty_stdlib nil_error nil_error faults.ErrRefused nil_error
                          doubles.accepted)
    faults.Generator "1x0000000000000000000000000000000AA"
    (Some faults.NoContent) faults.request_with_id
    (mkTrace faults.start [])
  = (Val (wrapError (Dynamic 0)
            "error sending HTTP request: dial tcp: connection refused"
            faults.ErrRefused),
     mkTrace (mkWorld 1 (1, 0))
             (extraction_calls faults.request_with_id
              ++ [call_Verify
                    (context_handle 0)
                    (Some (mkVerificationRequest "XXXX.DUMMY.TOKEN.XXXX"
                                                 "203.0.113.7" "req-7f3a"))])).
Proof.
  refine (transport_failure_through_gate
            (faults.faulty_stdlib nil_error nil_error faults.ErrRefused
                                  nil_error doubles.accepted)
            (NewMiddlewareWithConfig_mw
               (faults.faulty_stdlib nil_error nil_error faults.ErrRefused
                                     nil_error doubles.accepted)
               faults.Generator "1x0000000000000000000000000000000AA"
               zero_Config)
            (Some faults.NoContent) faults.request_with_id
            doubles.client
            (mkVerificationRequest "XXXX.DUMMY.TOKEN.XXXX" "203.0.113.7"
                                   "req-7f3a")
            faults.start faults.start [] faults.start ([], []) faults.start
            None faults.ErrRefused (mkWorld 0 (1, 0)) []
            eq_refl _ eq_refl eq_refl eq_refl eq_refl eq_refl).
  exists echo.DefaultSkipper, RequestHeaderTurnstileResponseExtractorFunc,
    EchoRemoteIPExtractor, (EchoIdempotencyKeyExtractor faults.Generator),
    faults.start, faults.start, faults.start.
  repeat split.
Defined.

Section Overrides.
Context {W : Type} (L : stdlib W).
Context (DefaultRequestIDConfig_Generator : M (world W) string).
Implicit Types (c : echo.Context) (w : world W).


End Overrides.


End gate_paths.
